(** * P135 (SCD4x CO2 / humidity / temperature sensor): plugin task data

    Shallow embedding of [src/src/PluginStructs/P135_data_struct.cpp]:
    the constructor, [startPeriodicMeasurements], [plugin_read],
    [plugin_write] and [plugin_get_config_value], over an abstract sensor
    driver and an abstract host (string helpers, logger, scheduler,
    timing macros), followed by the properties of the measurement cycle
    and of the two-step maintenance gate. *)

From Stdlib Require Import ZArith String Ascii List Bool Lia.
From Stdlib Require Import Floats.SpecFloat.
From stdpp Require Import base option list gmap strings pretty.

Local Open Scope string_scope.
Local Open Scope list_scope.
Local Open Scope Z_scope.

(** ** Data as the code has it *)

(** C++ [float]: IEEE 754 binary32 values. *)
Definition float : Type := spec_float.

(** Conversion of a [uint16_t] to [float] (exact: 16 bits fit the 24-bit
    mantissa). *)
Definition float_of_uint16 (z : Z) : float := binary_normalize 24 128 z 0 false.

(** Assignment to a [uint16_t] variable. *)
Definition wrap16 (z : Z) : Z := z mod 65536.

(** [String(n)] for an integer, [String(b)] for a [bool] (promoted to
    [int]) and [String(buf)] for a NUL-terminated [char] buffer. *)
Definition String_of_Z (z : Z) : string := pretty z.
Definition String_of_bool (b : bool) : string := if b then "1" else "0".

Fixpoint String_of_cstr (buf : list ascii) : string :=
  match buf with
  | [] => EmptyString
  | c :: rest =>
      if Ascii.eqb c Ascii.zero then EmptyString
      else String c (String_of_cstr rest)
  end.

(** [s += c] for a single [char]. *)
Definition append_char (s : string) (c : ascii) : string :=
  s +:+ String c EmptyString.

(** [buf[i]] on a [char] array. *)
Definition char_at (buf : list ascii) (i : nat) : ascii := nth i buf Ascii.zero.

Inductive loglevel := LOG_LEVEL_ERROR | LOG_LEVEL_INFO.

(** The two fields of [struct EventStruct] this file reads. *)
Record EventStruct := {
  TaskIndex : nat;
  BaseVarIndex : nat
}.

(** ** Collaborators *)

(** The vendor driver object [SCD4x]: every method takes the driver's
    state and returns its result with the next state.  [new_SCD4x] is
    [new (std::nothrow) SCD4x(type)], which may yield [nullptr]. *)
Class SCD4x (S : Type) := {
  new_SCD4x : Z -> option S;
  begin : bool -> bool -> S -> bool * S;
  getSensorAltitude : S -> Z * S;
  setSensorAltitude : Z -> S -> bool * S;
  getTemperatureOffset : S -> float * S;
  setTemperatureOffset : float -> S -> bool * S;
  getSerialNumber : list ascii -> S -> (bool * list ascii) * S;
  startLowPowerPeriodicMeasurement : S -> bool * S;
  startPeriodicMeasurement : S -> bool * S;
  stopPeriodicMeasurement : S -> bool * S;
  measureSingleShot : S -> bool * S;
  readMeasurement : S -> bool * S;
  getCO2 : S -> Z * S;
  getHumidity : S -> float * S;
  getTemperature : S -> float * S;
  persistSettings : S -> bool * S;
  performFactoryReset : S -> bool * S;
  performSelfTest : S -> bool * S;
  getDataReadyStatus : S -> bool * S;
  getAutomaticSelfCalibrationEnabled : S -> bool * S
}.

(** Helpers and macros of the firmware that this file only calls:
    the command tokenizers, the float formatter, the float comparison,
    the log-level filter and the timing macros of the plugin header. *)
Class Host := {
  parseString : string -> nat -> string;
  parseStringKeepCase : string -> nat -> string;
  toString : float -> nat -> string;
  essentiallyEqual : float -> float -> bool;
  loglevelActiveFor : loglevel -> bool;
  P135_EXTEND_MEASURE_TIME : Z;
  P135_SINGLE_SHOT_MEASURE_TIME : Z;
  P135_LOW_POWER_MEASURE_TIME : Z;
  P135_NORMAL_MEASURE_TIME : Z;
  P135_STOP_MEASUREMENT_DELAY : Z
}.

(** What one call does to the outside, in program order: calls on the
    driver (with argument and result), timers requested from the
    scheduler ([millis() + delay], recorded as [delay]) and log lines. *)
Inductive drv_call :=
| D_begin (skipStart autoCal : bool) (r : bool)
| D_getSensorAltitude (r : Z)
| D_setSensorAltitude (a : Z)
| D_getTemperatureOffset (r : float)
| D_setTemperatureOffset (f : float)
| D_getSerialNumber (r : bool)
| D_startLowPowerPeriodicMeasurement (r : bool)
| D_startPeriodicMeasurement (r : bool)
| D_stopPeriodicMeasurement (r : bool)
| D_measureSingleShot (r : bool)
| D_readMeasurement (r : bool)
| D_getCO2 (r : Z)
| D_getHumidity (r : float)
| D_getTemperature (r : float)
| D_persistSettings (r : bool)
| D_performFactoryReset (r : bool)
| D_performSelfTest (r : bool)
| D_getDataReadyStatus (r : bool)
| D_getAutomaticSelfCalibrationEnabled (r : bool).

Inductive event :=
| Drv (c : drv_call)
| Timer (task : nat) (delay : Z)
| Log (lvl : loglevel) (msg : string).

(** ** The handle *)

Section Plugin.

Context {S : Type} {driver : SCD4x S} {host : Host}.

(** Members of [P135_data_struct]; [scd4x] is the owned driver pointer
    ([None] is [nullptr]). *)
Record P135_data_struct := {
  scd4x : option S;
  _sensorType : Z;
  _altitude : Z;
  _tempOffset : float;
  _autoCalibrate : bool;
  _lowPowerMeasurement : bool;
  _useSingleShot : bool;
  serialNumber : list ascii;
  initialized : bool;
  firstRead : bool;
  singleShotStarted : bool;
  factoryResetCode : string;
  mustRunFactoryReset : bool;
  mustRunSelfTest : bool
}.

Definition set_scd4x (d : option S) (h : P135_data_struct) :=
  {| scd4x := d; _sensorType := _sensorType h; _altitude := _altitude h;
     _tempOffset := _tempOffset h; _autoCalibrate := _autoCalibrate h;
     _lowPowerMeasurement := _lowPowerMeasurement h;
     _useSingleShot := _useSingleShot h; serialNumber := serialNumber h;
     initialized := initialized h; firstRead := firstRead h;
     singleShotStarted := singleShotStarted h;
     factoryResetCode := factoryResetCode h;
     mustRunFactoryReset := mustRunFactoryReset h;
     mustRunSelfTest := mustRunSelfTest h |}.

Definition set_serialNumber (b : list ascii) (h : P135_data_struct) :=
  {| scd4x := scd4x h; _sensorType := _sensorType h; _altitude := _altitude h;
     _tempOffset := _tempOffset h; _autoCalibrate := _autoCalibrate h;
     _lowPowerMeasurement := _lowPowerMeasurement h;
     _useSingleShot := _useSingleShot h; serialNumber := b;
     initialized := initialized h; firstRead := firstRead h;
     singleShotStarted := singleShotStarted h;
     factoryResetCode := factoryResetCode h;
     mustRunFactoryReset := mustRunFactoryReset h;
     mustRunSelfTest := mustRunSelfTest h |}.

Definition set_initialized (b : bool) (h : P135_data_struct) :=
  {| scd4x := scd4x h; _sensorType := _sensorType h; _altitude := _altitude h;
     _tempOffset := _tempOffset h; _autoCalibrate := _autoCalibrate h;
     _lowPowerMeasurement := _lowPowerMeasurement h;
     _useSingleShot := _useSingleShot h; serialNumber := serialNumber h;
     initialized := b; firstRead := firstRead h;
     singleShotStarted := singleShotStarted h;
     factoryResetCode := factoryResetCode h;
     mustRunFactoryReset := mustRunFactoryReset h;
     mustRunSelfTest := mustRunSelfTest h |}.

Definition set_firstRead (b : bool) (h : P135_data_struct) :=
  {| scd4x := scd4x h; _sensorType := _sensorType h; _altitude := _altitude h;
     _tempOffset := _tempOffset h; _autoCalibrate := _autoCalibrate h;
     _lowPowerMeasurement := _lowPowerMeasurement h;
     _useSingleShot := _useSingleShot h; serialNumber := serialNumber h;
     initialized := initialized h; firstRead := b;
     singleShotStarted := singleShotStarted h;
     factoryResetCode := factoryResetCode h;
     mustRunFactoryReset := mustRunFactoryReset h;
     mustRunSelfTest := mustRunSelfTest h |}.

Definition set_singleShotStarted (b : bool) (h : P135_data_struct) :=
  {| scd4x := scd4x h; _sensorType := _sensorType h; _altitude := _altitude h;
     _tempOffset := _tempOffset h; _autoCalibrate := _autoCalibrate h;
     _lowPowerMeasurement := _lowPowerMeasurement h;
     _useSingleShot := _useSingleShot h; serialNumber := serialNumber h;
     initialized := initialized h; firstRead := firstRead h;
     singleShotStarted := b;
     factoryResetCode := factoryResetCode h;
     mustRunFactoryReset := mustRunFactoryReset h;
     mustRunSelfTest := mustRunSelfTest h |}.

Definition set_factoryResetCode (c : string) (h : P135_data_struct) :=
  {| scd4x := scd4x h; _sensorType := _sensorType h; _altitude := _altitude h;
     _tempOffset := _tempOffset h; _autoCalibrate := _autoCalibrate h;
     _lowPowerMeasurement := _lowPowerMeasurement h;
     _useSingleShot := _useSingleShot h; serialNumber := serialNumber h;
     initialized := initialized h; firstRead := firstRead h;
     singleShotStarted := singleShotStarted h;
     factoryResetCode := c;
     mustRunFactoryReset := mustRunFactoryReset h;
     mustRunSelfTest := mustRunSelfTest h |}.

Definition set_mustRunFactoryReset (b : bool) (h : P135_data_struct) :=
  {| scd4x := scd4x h; _sensorType := _sensorType h; _altitude := _altitude h;
     _tempOffset := _tempOffset h; _autoCalibrate := _autoCalibrate h;
     _lowPowerMeasurement := _lowPowerMeasurement h;
     _useSingleShot := _useSingleShot h; serialNumber := serialNumber h;
     initialized := initialized h; firstRead := firstRead h;
     singleShotStarted := singleShotStarted h;
     factoryResetCode := factoryResetCode h;
     mustRunFactoryReset := b;
     mustRunSelfTest := mustRunSelfTest h |}.

Definition set_mustRunSelfTest (b : bool) (h : P135_data_struct) :=
  {| scd4x := scd4x h; _sensorType := _sensorType h; _altitude := _altitude h;
     _tempOffset := _tempOffset h; _autoCalibrate := _autoCalibrate h;
     _lowPowerMeasurement := _lowPowerMeasurement h;
     _useSingleShot := _useSingleShot h; serialNumber := serialNumber h;
     initialized := initialized h; firstRead := firstRead h;
     singleShotStarted := singleShotStarted h;
     factoryResetCode := factoryResetCode h;
     mustRunFactoryReset := mustRunFactoryReset h;
     mustRunSelfTest := b |}.

(** The handle together with the host's output slots [UserVar]. *)
Record world := {
  self : P135_data_struct;
  UserVar : gmap nat float
}.

(** ** A state, output and fault monad

    A computation takes the world and either faults (a call through a
    null [scd4x] pointer) or returns its value, the next world and the
    events it produced. *)
Definition M (A : Type) : Type := world -> option (A * world * list event).

Definition ret {A} (a : A) : M A := fun w => Some (a, w, []).

Definition bind {A B} (m : M A) (k : A -> M B) : M B :=
  fun w =>
    match m w with
    | None => None
    | Some (a, w1, e1) =>
        match k a w1 with
        | None => None
        | Some (b, w2, e2) => Some (b, w2, e1 ++ e2)
        end
    end.

#[local] Notation "x <- m ;; k" := (bind m (fun x => k))
  (at level 100, m at next level, k at level 200, right associativity).
#[local] Notation "m ;;; k" := (bind m (fun _ => k))
  (at level 100, k at level 200, right associativity).

Definition get_self : M P135_data_struct := fun w => Some (self w, w, []).

Definition modify (f : P135_data_struct -> P135_data_struct) : M unit :=
  fun w => Some (tt, {| self := f (self w); UserVar := UserVar w |}, []).

Definition emit (e : event) : M unit := fun w => Some (tt, w, [e]).

Definition when (b : bool) (m : M unit) : M unit := if b then m else ret tt.

(** [scd4x->method(...)]: faults on [nullptr]. *)
Definition call {A} (method : S -> A * S) (record : A -> drv_call) : M A :=
  fun w =>
    match scd4x (self w) with
    | None => None
    | Some d =>
        let '(r, d') := method d in
        Some (r, {| self := set_scd4x (Some d') (self w); UserVar := UserVar w |},
              [Drv (record r)])
    end.

Definition addLog (lvl : loglevel) (msg : string) : M unit := emit (Log lvl msg).

Definition schedule_task_device_timer (task : nat) (delay : Z) : M unit :=
  emit (Timer task delay).

Definition set_UserVar (i : nat) (v : float) : M unit :=
  fun w => Some (tt, {| self := self w; UserVar := <[i := v]> (UserVar w) |}, []).

(** ** startPeriodicMeasurements *)

Definition startPeriodicMeasurements : M bool :=
  h <- get_self ;;
  if _useSingleShot h then ret true
  else if _lowPowerMeasurement h then
    call startLowPowerPeriodicMeasurement D_startLowPowerPeriodicMeasurement
  else call startPeriodicMeasurement D_startPeriodicMeasurement.

(** ** Constructor

    The build modelled here has [P135_FEATURE_RESET_COMMANDS] enabled. *)

(** Modelled from the spec: the class declaration (the plugin header
    [P135_data_struct.h]) is missing.  These are its member defaults
    together with the constructor's member initialisers: the spec's
    runtime state starts with no serial number captured, the first-read
    discard armed, no single shot in progress, no confirmation code on
    file and no maintenance request pending. *)
Definition P135_data_struct_members (sensorType altitude : Z) (tempOffset : float)
    (autoCalibrate lowPowerMeasurement useSingleShot : bool) : P135_data_struct :=
  {| scd4x := None;
     _sensorType := sensorType;
     _altitude := altitude;
     _tempOffset := tempOffset;
     _autoCalibrate := autoCalibrate;
     _lowPowerMeasurement := lowPowerMeasurement;
     _useSingleShot := useSingleShot;
     serialNumber := repeat Ascii.zero 13;
     initialized := false;
     firstRead := true;
     singleShotStarted := false;
     factoryResetCode := "";
     mustRunFactoryReset := false;
     mustRunSelfTest := false |}.

(** Modelled from the spec: [isInitialized()] is declared in the missing
    header; the spec's initialized flag is what the read path tests. *)
Definition isInitialized (h : P135_data_struct) : bool := initialized h.

Definition init_log (ok hasSerial : bool) (sn : list ascii) (orgAltitude : Z)
    (orgTempOffset : float) : string :=
  if ok then
    "SCD4x: Init " +:+ "success, serial number: " +:+
    (if hasSerial then String_of_cstr sn else "(unknown)") +:+
    ", org.alt.comp.: " +:+ String_of_Z orgAltitude +:+
    " m, org.temp.offs.: " +:+ toString orgTempOffset 2 +:+ "C"
  else "SCD4x: Init " +:+ "error".

(** The constructor's body, run on the freshly initialised members. *)
Definition P135_data_struct_body : M unit :=
  h <- get_self ;;
  match scd4x h with
  | None => ret tt
  | Some _ =>
      detected <- call (begin false (_autoCalibrate h)) (D_begin false (_autoCalibrate h)) ;;
      if detected then
        orgAltitude <- call getSensorAltitude D_getSensorAltitude ;;
        when (negb (_altitude h =? 0))
          (_ <- call (setSensorAltitude (_altitude h))
                  (fun _ => D_setSensorAltitude (_altitude h)) ;; ret tt) ;;;
        orgTempOffset <- call getTemperatureOffset D_getTemperatureOffset ;;
        when (negb (essentiallyEqual (_tempOffset h) (S754_zero false)))
          (_ <- call (setTemperatureOffset (_tempOffset h))
                  (fun _ => D_setTemperatureOffset (_tempOffset h)) ;; ret tt) ;;;
        serial <- call (getSerialNumber (serialNumber h))
                    (fun r => D_getSerialNumber (fst r)) ;;
        modify (set_serialNumber (snd serial)) ;;;
        started <- startPeriodicMeasurements ;;
        modify (set_initialized started) ;;;
        when (loglevelActiveFor LOG_LEVEL_INFO)
          (addLog LOG_LEVEL_INFO
             (init_log started (fst serial) (snd serial) orgAltitude orgTempOffset))
      else addLog LOG_LEVEL_ERROR "SDC4x: Sensor not detected."
  end.

Definition P135_data_struct_new (taskIndex : nat) (sensorType altitude : Z)
    (tempOffset : float) (autoCalibrate lowPowerMeasurement useSingleShot : bool)
    (uv : gmap nat float) : option (unit * world * list event) :=
  P135_data_struct_body
    {| self := set_scd4x (new_SCD4x sensorType)
                 (P135_data_struct_members sensorType altitude tempOffset
                    autoCalibrate lowPowerMeasurement useSingleShot);
       UserVar := uv |}.

(** ** plugin_read *)

(** The re-poll delay of the branch without a sample, as assigned to the
    [uint16_t] local [timerDelay]. *)
Definition repoll_delay (getMeasure : bool) (h : P135_data_struct) : Z :=
  wrap16
    (if getMeasure && negb (firstRead h) then P135_EXTEND_MEASURE_TIME
     else if _useSingleShot h then P135_SINGLE_SHOT_MEASURE_TIME
     else if _lowPowerMeasurement h then P135_LOW_POWER_MEASURE_TIME
     else P135_NORMAL_MEASURE_TIME).

(** One armed maintenance request serviced by the uninitialised branch:
    [perform] is the driver's factory reset or self test. *)
Definition run_maintenance (event : EventStruct) (perform : M bool)
    (okmsg failmsg : string) : M bool :=
  success <- perform ;;
  (if success then
     started <- startPeriodicMeasurements ;;
     modify (set_initialized started) ;;;
     schedule_task_device_timer (TaskIndex event) P135_STOP_MEASUREMENT_DELAY ;;;
     addLog LOG_LEVEL_INFO okmsg
   else addLog LOG_LEVEL_ERROR failmsg) ;;;
  ret success.

Definition plugin_read (event : EventStruct) : M bool :=
  h <- get_self ;;
  if isInitialized h then
    shot <- (if _useSingleShot h && negb (singleShotStarted h)
             then call measureSingleShot D_measureSingleShot
             else ret false) ;;
    getMeasure <- (if shot then
                     modify (set_singleShotStarted true) ;;;
                     when (loglevelActiveFor LOG_LEVEL_INFO)
                       (addLog LOG_LEVEL_INFO "SCD4x: SingleShot measurement started.") ;;;
                     ret false
                   else ret true) ;;
    got <- (if getMeasure then call readMeasurement D_readMeasurement
            else ret false) ;;
    res <- (if got then
              co2 <- call getCO2 D_getCO2 ;;
              set_UserVar (BaseVarIndex event) (float_of_uint16 co2) ;;;
              hum <- call getHumidity D_getHumidity ;;
              set_UserVar (BaseVarIndex event + 1)%nat hum ;;;
              temp <- call getTemperature D_getTemperature ;;
              set_UserVar (BaseVarIndex event + 2)%nat temp ;;;
              h1 <- get_self ;;
              modify (set_singleShotStarted false) ;;;
              modify (set_firstRead false) ;;;
              ret (negb (firstRead h1), 0)
            else
              h1 <- get_self ;;
              ret (false, repoll_delay getMeasure h1)) ;;
    when (negb (snd res =? 0))
      (when (loglevelActiveFor LOG_LEVEL_INFO)
         (addLog LOG_LEVEL_INFO
            ("SCD4x: READ Scheduler started: +" +:+ String_of_Z (snd res) +:+ " ms.")) ;;;
       schedule_task_device_timer (TaskIndex event) (snd res)) ;;;
    ret (fst res)
  else
    s1 <- (if mustRunFactoryReset h then
             run_maintenance event (call performFactoryReset D_performFactoryReset)
               "SCD4x: Factory reset success." "SCD4x: Factory reset failed!"
           else ret false) ;;
    h1 <- get_self ;;
    if mustRunSelfTest h1 then
      run_maintenance event (call performSelfTest D_performSelfTest)
        "SCD4x: Sensor self-test success." "SCD4x: Sensor self-test failed!"
    else ret s1.

(** ** plugin_write *)

(** The confirmation code built on the first invocation of
    [scd4x,factoryreset] or [scd4x,selftest]. *)
Definition confirmation_code (doSelftest : bool) (sn : list ascii) : string :=
  let c0 := "Scd4x" in
  let c1 :=
    if negb (Ascii.eqb (char_at sn 10) Ascii.zero) then
      if doSelftest then
        append_char (append_char (append_char (append_char c0
          (char_at sn 3)) (char_at sn 1)) (char_at sn 10)) (char_at sn 6)
      else
        append_char (append_char (append_char (append_char c0
          (char_at sn 1)) (char_at sn 3)) (char_at sn 7)) (char_at sn 10)
    else c0 +:+ "2022" in
  if doSelftest then c1 +:+ "SelF" else c1 +:+ "reseT".

Definition plugin_write (event : EventStruct) (string : String.string) : M bool :=
  let command := parseString string 1 in
  if String.eqb command "scd4x" then
    let sub := parseString string 2 in
    let doSelftest := String.eqb sub "selftest" in
    if String.eqb sub "storesettings" then
      call persistSettings D_persistSettings
    else if String.eqb sub "factoryreset" || doSelftest then
      h <- get_self ;;
      if String.eqb (factoryResetCode h) "" then
        modify (set_factoryResetCode (confirmation_code doSelftest (serialNumber h))) ;;;
        h1 <- get_self ;;
        addLog LOG_LEVEL_ERROR
          ("SCD4x: " +:+
           (if doSelftest then "Selftest code: " else "Factory reset code: ") +:+
           factoryResetCode h1) ;;;
        ret true
      else
        let code := parseStringKeepCase string 3 in
        success <-
          (if String.eqb code (factoryResetCode h) then
             addLog LOG_LEVEL_ERROR
               (if doSelftest
                then "SCD4x: Selftest starting... (may take up to 11 seconds!)"
                else "SCD4x: Factory reset starting... (may take up to 2.5 seconds!)") ;;;
             stopped <- call stopPeriodicMeasurement D_stopPeriodicMeasurement ;;
             if stopped then
               modify (set_initialized false) ;;;
               modify (set_firstRead true) ;;;
               modify (if doSelftest then set_mustRunSelfTest true
                       else set_mustRunFactoryReset true) ;;;
               schedule_task_device_timer (TaskIndex event) P135_STOP_MEASUREMENT_DELAY ;;;
               ret true
             else ret false
           else ret false) ;;
        modify (set_factoryResetCode "") ;;;
        ret success
    else ret false
  else ret false.

(** ** plugin_get_config_value

    The in-out [String &] parameter is returned next to the result. *)
Definition plugin_get_config_value (event : EventStruct) (string : String.string)
    : M (bool * String.string) :=
  let var := parseString string 1 in
  if String.eqb var "getaltitude" then
    a <- call getSensorAltitude D_getSensorAltitude ;;
    ret (true, String_of_Z a)
  else if String.eqb var "gettempoffset" then
    t <- call getTemperatureOffset D_getTemperatureOffset ;;
    ret (true, toString t 2)
  else if String.eqb var "getdataready" then
    r <- call getDataReadyStatus D_getDataReadyStatus ;;
    ret (true, String_of_bool r)
  else if String.eqb var "getselfcalibration" then
    r <- call getAutomaticSelfCalibrationEnabled D_getAutomaticSelfCalibrationEnabled ;;
    ret (true, String_of_bool r)
  else ret (false, string).

End Plugin.

Arguments P135_data_struct S : clear implicits.
Arguments world S : clear implicits.
Arguments M S A : clear implicits.

(** ** The host's dispatch of calls to one handle

    Modelled from the spec: the plugin framework's event dispatch is
    outside this file; it delivers read, write and query calls to a
    handle serialised, one at a time.  [run] executes a sequence of them
    and records, per call, the world before and after, the result and
    the events.  A fault ends the run. *)

Inductive invocation :=
| PLUGIN_READ (event : EventStruct)
| PLUGIN_WRITE (event : EventStruct) (string : String.string)
| PLUGIN_GET_CONFIG_VALUE (event : EventStruct) (string : String.string).

Record step (S : Type) := {
  before : world S;
  what : invocation;
  result : bool;
  after : world S;
  effects : list event
}.

Arguments before {S} _.
Arguments what {S} _.
Arguments result {S} _.
Arguments after {S} _.
Arguments effects {S} _.

Section Dispatch.

Context {S : Type} {driver : SCD4x S} {host : Host}.

Definition dispatch (c : invocation) : M S bool :=
  match c with
  | PLUGIN_READ ev => plugin_read ev
  | PLUGIN_WRITE ev s => plugin_write ev s
  | PLUGIN_GET_CONFIG_VALUE ev s => bind (plugin_get_config_value ev s) (fun r => ret (fst r))
  end.

Fixpoint run (cs : list invocation) (w : world S) : list (step S) * option (world S) :=
  match cs with
  | [] => ([], Some w)
  | c :: rest =>
      match dispatch c w with
      | None => ([], None)
      | Some (r, w', evs) =>
          let '(steps, final) := run rest w' in
          ({| before := w; what := c; result := r; after := w'; effects := evs |}
             :: steps, final)
      end
  end.

End Dispatch.

(** ** A simulated sensor and host, for concrete runs *)

Module Sim.

(** A sensor whose answers are fixed by its state: whether it is
    detected, whether a single shot can be triggered, whether a sample
    is ready, whether stopping and the maintenance operations succeed. *)
Record sensor := {
  detect : bool;
  shot : bool;
  data : bool;
  stop : bool;
  maint : bool;
  altitude : Z;
  offset : float;
  serial : option (list ascii)
}.

Definition with_altitude (a : Z) (d : sensor) : sensor :=
  {| detect := detect d; shot := shot d; data := data d; stop := stop d;
     maint := maint d; altitude := a; offset := offset d; serial := serial d |}.

Definition with_offset (f : float) (d : sensor) : sensor :=
  {| detect := detect d; shot := shot d; data := data d; stop := stop d;
     maint := maint d; altitude := altitude d; offset := f; serial := serial d |}.

(** The sensor type selects the simulated device: 0 is allocated, any
    other value makes the allocation fail. *)
Definition allocate (template : sensor) (sensorType : Z) : option sensor :=
  if sensorType =? 0 then Some template else None.

Definition half : float := S754_finite false 1 (-1).
Definition twenty_five : float := S754_finite false 25 0.

Definition driver (template : sensor) : SCD4x sensor := {|
  new_SCD4x := allocate template;
  begin := fun _ _ d => (detect d, d);
  getSensorAltitude := fun d => (altitude d, d);
  setSensorAltitude := fun a d => (true, with_altitude a d);
  getTemperatureOffset := fun d => (offset d, d);
  setTemperatureOffset := fun f d => (true, with_offset f d);
  getSerialNumber := fun buf d =>
    match serial d with
    | Some sn => ((true, sn), d)
    | None => ((false, buf), d)
    end;
  startLowPowerPeriodicMeasurement := fun d => (true, d);
  startPeriodicMeasurement := fun d => (true, d);
  stopPeriodicMeasurement := fun d => (stop d, d);
  measureSingleShot := fun d => (shot d, d);
  readMeasurement := fun d => (data d, d);
  getCO2 := fun d => (415, d);
  getHumidity := fun d => (half, d);
  getTemperature := fun d => (twenty_five, d);
  persistSettings := fun d => (true, d);
  performFactoryReset := fun d => (maint d, d);
  performSelfTest := fun d => (maint d, d);
  getDataReadyStatus := fun d => (data d, d);
  getAutomaticSelfCalibrationEnabled := fun d => (true, d)
|}.

(** Comma-separated tokens, numbered from 1; [parseString] lowers the
    case, [parseStringKeepCase] does not. *)
Fixpoint tokens (s : string) : list string :=
  match s with
  | EmptyString => [EmptyString]
  | String c rest =>
      if Ascii.eqb c "," then EmptyString :: tokens rest
      else match tokens rest with
           | t :: ts => String c t :: ts
           | [] => [String c EmptyString]
           end
  end.

Definition lower (c : ascii) : ascii :=
  let n := nat_of_ascii c in
  if (65 <=? n)%nat && (n <=? 90)%nat then ascii_of_nat (n + 32) else c.

Fixpoint lowercase (s : string) : string :=
  match s with
  | EmptyString => EmptyString
  | String c rest => String (lower c) (lowercase rest)
  end.

Definition token (s : string) (n : nat) : string :=
  nth (n - 1) (tokens s) EmptyString.

(** Fixed-point rendering of a finite float, truncated. *)
Definition scaled (f : float) (decimals : nat) : Z :=
  match f with
  | S754_finite s m e =>
      let v := Z.pos m * 10 ^ Z.of_nat decimals in
      let q := if 0 <=? e then v * 2 ^ e else v / 2 ^ (- e) in
      if s then - q else q
  | _ => 0
  end.

Fixpoint fraction (n : nat) (v : Z) : string :=
  match n with
  | O => EmptyString
  | Datatypes.S k =>
      fraction k (v / 10) +:+
      String (ascii_of_nat (48 + Z.to_nat (v mod 10))) EmptyString
  end.

Definition render (f : float) (decimals : nat) : string :=
  let q := scaled f decimals in
  let p := 10 ^ Z.of_nat decimals in
  (if q <? 0 then "-" else "") +:+ String_of_Z (Z.abs q / p) +:+ "." +:+
  fraction decimals (Z.abs q mod p).

Definition host : Host := {|
  parseString := fun s n => lowercase (token s n);
  parseStringKeepCase := token;
  toString := render;
  essentiallyEqual := SFeqb;
  loglevelActiveFor := fun _ => true;
  P135_EXTEND_MEASURE_TIME := 1000;
  P135_SINGLE_SHOT_MEASURE_TIME := 5000;
  P135_LOW_POWER_MEASURE_TIME := 30000;
  P135_NORMAL_MEASURE_TIME := 5000;
  P135_STOP_MEASUREMENT_DELAY := 550
|}.

(** A 13-byte serial buffer: twelve hexadecimal digits and the NUL. *)
Definition serial_A : list ascii :=
  list_ascii_of_string "0123456789ab" ++ [Ascii.zero].

(** A present, healthy sensor with a sample ready. *)
Definition healthy : sensor :=
  {| detect := true; shot := true; data := true; stop := true; maint := true;
     altitude := 0; offset := S754_zero false; serial := Some serial_A |}.

(** A sensor that does not answer the bus probe. *)
Definition absent : sensor :=
  {| detect := false; shot := false; data := false; stop := false; maint := false;
     altitude := 0; offset := S754_zero false; serial := None |}.

(** A sensor that refuses single shots but holds a sample. *)
Definition no_shot : sensor :=
  {| detect := true; shot := false; data := true; stop := true; maint := true;
     altitude := 0; offset := S754_zero false; serial := Some serial_A |}.

Definition ev0 : EventStruct := {| TaskIndex := 0; BaseVarIndex := 0 |}.

(** World after construction, when construction returns. *)
Definition built (template : sensor) (altitude : Z) (tempOffset : float)
    (lowPower singleShot : bool) : option (world sensor * list event) :=
  match @P135_data_struct_new sensor (driver template) host 0%nat 0 altitude
          tempOffset true lowPower singleShot ∅ with
  | Some (_, w, evs) => Some (w, evs)
  | None => None
  end.

(** A present sensor with no sample ready. *)
Definition waiting : sensor :=
  {| detect := true; shot := true; data := false; stop := true; maint := true;
     altitude := 0; offset := S754_zero false; serial := Some serial_A |}.

(** A handle over sensor [d], and a world with empty output slots. *)
Definition handle (d : sensor) (singleShot init first : bool) (code : string)
    : P135_data_struct sensor :=
  {| scd4x := Some d; _sensorType := 0; _altitude := 0;
     _tempOffset := S754_zero false; _autoCalibrate := true;
     _lowPowerMeasurement := false; _useSingleShot := singleShot;
     serialNumber := match serial d with
                     | Some sn => sn
                     | None => repeat Ascii.zero 13
                     end;
     initialized := init; firstRead := first;
     singleShotStarted := false; factoryResetCode := code;
     mustRunFactoryReset := false; mustRunSelfTest := false |}.

Definition at_rest (h : P135_data_struct sensor) : world sensor :=
  {| self := h; UserVar := ∅ |}.

(** The world the constructor leaves over the healthy sensor; the same
    with a factory-reset code on file; a handle over the waiting sensor
    after its first read; the single-shot handles the constructor leaves
    over the healthy sensor and over the one that refuses single shots;
    the handle it leaves over the absent sensor. *)
Definition fresh : world sensor := at_rest (handle healthy false true true "").
Definition coded : world sensor :=
  at_rest (handle healthy false true true "Scd4x137areseT").
Definition polling : world sensor := at_rest (handle waiting false true false "").
Definition single : world sensor := at_rest (handle healthy true true true "").
Definition reluctant : world sensor := at_rest (handle no_shot true true true "").
Definition undetected : world sensor := at_rest (handle absent false false true "").

(** A sensor that misses the bus probe but answers afterwards. *)
Definition asleep : sensor :=
  {| detect := false; shot := true; data := true; stop := true; maint := true;
     altitude := 0; offset := S754_zero false; serial := None |}.

End Sim.

(** ** Vocabulary of the properties *)

(** The driver calls, the timers and the log lines among the events of
    a call, in order. *)
Fixpoint drv_calls (evs : list event) : list drv_call :=
  match evs with
  | [] => []
  | Drv c :: rest => c :: drv_calls rest
  | _ :: rest => drv_calls rest
  end.

Fixpoint timers (evs : list event) : list (nat * Z) :=
  match evs with
  | [] => []
  | Timer t d :: rest => (t, d) :: timers rest
  | _ :: rest => timers rest
  end.

Fixpoint log_lines (evs : list event) : list (loglevel * string) :=
  match evs with
  | [] => []
  | Log l m :: rest => (l, m) :: log_lines rest
  | _ :: rest => log_lines rest
  end.

(** The two sub-commands behind the confirmation gate. *)
Definition is_maintenance (sub : string) : Prop :=
  sub = "factoryreset" \/ sub = "selftest".

(** The sub-command keyword of each destructive operation, and the
    driver call that carries it out. *)
Definition keyword (selftest : bool) : string :=
  if selftest then "selftest" else "factoryreset".

Definition perform_call (selftest : bool) (r : bool) : drv_call :=
  if selftest then D_performSelfTest r else D_performFactoryReset r.

(** A single shot was accepted by the driver during the call. *)
Definition just_triggered (evs : list event) : bool :=
  existsb (fun c => match c with D_measureSingleShot true => true | _ => false end)
    (drv_calls evs).

(** The driver's [readMeasurement] succeeded during the call. *)
Definition sampled (evs : list event) : Prop :=
  In (D_readMeasurement true) (drv_calls evs).

(** The call read one sample from the driver after a successful
    [readMeasurement] and left it in the three output slots of the task:
    CO2, humidity, temperature. *)
Definition slots_written {S : Type} (ev : EventStruct) (evs : list event)
    (w' : world S) : Prop :=
  exists pre co2 hum temp,
    drv_calls evs =
      pre ++ [D_readMeasurement true; D_getCO2 co2; D_getHumidity hum;
              D_getTemperature temp] /\
    UserVar w' !! BaseVarIndex ev = Some (float_of_uint16 co2) /\
    UserVar w' !! (BaseVarIndex ev + 1)%nat = Some hum /\
    UserVar w' !! (BaseVarIndex ev + 2)%nat = Some temp.

(** The [EventStruct] a call was made with. *)
Definition event_of (c : invocation) : EventStruct :=
  match c with
  | PLUGIN_READ ev | PLUGIN_WRITE ev _ | PLUGIN_GET_CONFIG_VALUE ev _ => ev
  end.

(** The sensor answered the bus probe of the constructor: the driver
    object was allocated and [begin] succeeded. *)
Definition detected {S : Type} {driver : SCD4x S} (sensorType : Z)
    (autoCalibrate : bool) : bool :=
  match new_SCD4x sensorType with
  | Some d => fst (begin false autoCalibrate d)
  | None => false
  end.

(** Commands of [plugin_write] that reach the driver or the gate. *)
Definition sensor_command {host : Host} (str : string) : Prop :=
  parseString str 1 = "scd4x" /\
  (parseString str 2 = "storesettings" \/ is_maintenance (parseString str 2)).

(** A read, or a write that is none of the sensor commands. *)
Definition ordinary {host : Host} (c : invocation) : Prop :=
  match c with
  | PLUGIN_READ _ => True
  | PLUGIN_WRITE _ str => ~ sensor_command str
  | PLUGIN_GET_CONFIG_VALUE _ _ => False
  end.

(** The destructive driver call was made during the step. *)
Definition performs {S : Type} (selftest : bool) (s : step S) : Prop :=
  exists r, In (perform_call selftest r) (drv_calls (effects s)).

(** The step is a maintenance command that echoed the code on file and
    whose stop of the periodic measurement succeeded. *)
Definition confirms {S : Type} {host : Host} (selftest : bool) (s : step S) : Prop :=
  exists ev str,
    what s = PLUGIN_WRITE ev str /\
    parseString str 1 = "scd4x" /\
    parseString str 2 = keyword selftest /\
    factoryResetCode (self (before s)) <> "" /\
    parseStringKeepCase str 3 = factoryResetCode (self (before s)) /\
    In (D_stopPeriodicMeasurement true) (drv_calls (effects s)).

(** The step is a maintenance command that found no code on file and
    put [code] there. *)
Definition generates {S : Type} {host : Host} (code : string) (s : step S) : Prop :=
  exists ev str,
    what s = PLUGIN_WRITE ev str /\
    parseString str 1 = "scd4x" /\
    is_maintenance (parseString str 2) /\
    factoryResetCode (self (before s)) = "" /\
    factoryResetCode (self (after s)) = code.

(** Before position [k] of a run, a code was generated and later echoed
    by a confirming command for the operation, with a successful stop. *)
Definition authorised {S : Type} {host : Host} (steps : list (step S))
    (selftest : bool) (k : nat) : Prop :=
  exists g j sg sj,
    (g < j)%nat /\ (j < k)%nat /\
    steps !! g = Some sg /\ steps !! j = Some sj /\
    generates (factoryResetCode (self (before sj))) sg /\
    confirms selftest sj.

(** The pending flag of an operation. *)
Definition pending {S : Type} (selftest : bool) (h : P135_data_struct S) : bool :=
  if selftest then mustRunSelfTest h else mustRunFactoryReset h.

(** The gate's bookkeeping after a run that recorded [steps] and ended
    in [w]: a pending flag is backed by a generated and confirmed code,
    and a code on file is backed by the command that generated it. *)
Definition gate_invariant {S : Type} {host : Host} (steps : list (step S))
    (w : world S) : Prop :=
  (forall st, pending st (self w) = true -> authorised steps st (length steps)) /\
  (factoryResetCode (self w) <> "" ->
   exists g sg, steps !! g = Some sg /\ generates (factoryResetCode (self w)) sg).

(** The configuration given to the constructor and the serial number
    cached by it are the same in two handles. *)
Definition same_configuration {S : Type} (h h' : P135_data_struct S) : Prop :=
  _sensorType h' = _sensorType h /\
  _altitude h' = _altitude h /\
  _tempOffset h' = _tempOffset h /\
  _autoCalibrate h' = _autoCalibrate h /\
  _lowPowerMeasurement h' = _lowPowerMeasurement h /\
  _useSingleShot h' = _useSingleShot h /\
  serialNumber h' = serialNumber h.

(** The three output slots of the task an event belongs to. *)
Definition own_slot (ev : EventStruct) (i : nat) : Prop :=
  i = BaseVarIndex ev \/ i = (BaseVarIndex ev + 1)%nat \/
  i = (BaseVarIndex ev + 2)%nat.

(** The four keywords [plugin_get_config_value] answers. *)
Definition config_keyword (var : string) : Prop :=
  var = "getaltitude" \/ var = "gettempoffset" \/ var = "getdataready" \/
  var = "getselfcalibration".

(** No maintenance request is pending on the handle. *)
Definition idle {S : Type} (h : P135_data_struct S) : Prop :=
  mustRunFactoryReset h = false /\ mustRunSelfTest h = false.

(** * Properties *)

(** ** Proof automation

    Unfolding of the monadic operations, and case analysis along the
    control flow: of a call that is known to have returned
    ([split_run]) and of a call still to be run ([split_goal]). *)

Ltac unfold_ops :=
  unfold plugin_read, plugin_write, plugin_get_config_value, run_maintenance,
    startPeriodicMeasurements, P135_data_struct_new, P135_data_struct_body,
    bind, ret, get_self, modify, emit, when, call, addLog,
    schedule_task_device_timer, set_UserVar, isInitialized in *.

Ltac unfold_read H :=
  unfold plugin_read, run_maintenance, startPeriodicMeasurements, bind, ret,
    get_self, modify, emit, when, call, addLog, schedule_task_device_timer,
    set_UserVar, isInitialized in H.

Ltac innermost x :=
  lazymatch x with
  | context [match _ with _ => _ end] => fail
  | _ => idtac
  end.

Ltac split_run H :=
  repeat (cbn in H;
    match type of H with
    | context [match ?x with _ => _ end] => innermost x; destruct x eqn:?
    end);
  try discriminate H;
  injection H as <- <- <-.

(** Rewrite the goal with the boolean facts collected on the way. *)
Ltac use_equations :=
  rewrite ?negb_true_iff, ?negb_false_iff in *;
  repeat match goal with
         | E : ?t = true |- context [?t] => rewrite E
         | E : ?t = false |- context [?t] => rewrite E
         end.

Ltac split_goal :=
  repeat (cbn;
    match goal with
    | |- context [match ?x with _ => _ end] => innermost x; destruct x eqn:?
    end).

(** ** The maintenance gate of [plugin_write] *)

Section MaintenanceGate.

Context {S : Type} {driver : SCD4x S} {host : Host}.

(** The sub-command decides [doSelftest]; neither maintenance keyword is
    [storesettings]. *)
Lemma maintenance_dispatch sub :
  is_maintenance sub ->
  String.eqb sub "storesettings" = false /\
  (String.eqb sub "factoryreset" || String.eqb sub "selftest") = true.
Proof. intros [-> | ->]; split; reflexivity. Qed.

Lemma code_on_file (c : string) : c <> "" -> String.eqb c "" = false.
Proof. intros H. apply String.eqb_neq. exact H. Qed.

(** First invocation: the whole effect of the call. *)
Lemma plugin_write_generate (ev : EventStruct) (str : string) (w : world S) :
  parseString str 1 = "scd4x" ->
  is_maintenance (parseString str 2) ->
  factoryResetCode (self w) = "" ->
  let doSelftest := String.eqb (parseString str 2) "selftest" in
  let code := confirmation_code doSelftest (serialNumber (self w)) in
  plugin_write ev str w =
    Some (true,
          {| self := set_factoryResetCode code (self w); UserVar := UserVar w |},
          [Log LOG_LEVEL_ERROR
             ("SCD4x: " +:+
              (if doSelftest then "Selftest code: " else "Factory reset code: ") +:+
              code)]).
Proof.
  intros Hcmd Hsub Hcode. unfold plugin_write. rewrite Hcmd.
  destruct (maintenance_dispatch _ Hsub) as [Hst Hm].
  change (String.eqb "scd4x" "scd4x") with true. cbv iota.
  rewrite Hst, Hm. unfold bind, get_self, modify, addLog, emit, ret.
  rewrite Hcode. reflexivity.
Qed.

(** Second invocation with a driver attached: the whole effect of the
    call, by code comparison and by the driver's answer to the stop. *)
Lemma plugin_write_confirm (ev : EventStruct) (str : string) (w : world S) (d : S) :
  parseString str 1 = "scd4x" ->
  is_maintenance (parseString str 2) ->
  factoryResetCode (self w) <> "" ->
  scd4x (self w) = Some d ->
  let doSelftest := String.eqb (parseString str 2) "selftest" in
  let armed h := if doSelftest then set_mustRunSelfTest true h
                 else set_mustRunFactoryReset true h in
  let starting :=
    Log LOG_LEVEL_ERROR
      (if doSelftest
       then "SCD4x: Selftest starting... (may take up to 11 seconds!)"
       else "SCD4x: Factory reset starting... (may take up to 2.5 seconds!)") in
  plugin_write ev str w =
    if String.eqb (parseStringKeepCase str 3) (factoryResetCode (self w)) then
      let h := set_scd4x (Some (snd (stopPeriodicMeasurement d))) (self w) in
      if fst (stopPeriodicMeasurement d) then
        Some (true,
              {| self := set_factoryResetCode ""
                           (armed (set_firstRead true (set_initialized false h)));
                 UserVar := UserVar w |},
              [starting; Drv (D_stopPeriodicMeasurement true);
               Timer (TaskIndex ev) P135_STOP_MEASUREMENT_DELAY])
      else
        Some (false,
              {| self := set_factoryResetCode "" h; UserVar := UserVar w |},
              [starting; Drv (D_stopPeriodicMeasurement false)])
    else
      Some (false,
            {| self := set_factoryResetCode "" (self w); UserVar := UserVar w |},
            []).
Proof.
  intros Hcmd Hsub Hcode Hd. unfold plugin_write. rewrite Hcmd.
  destruct (maintenance_dispatch _ Hsub) as [Hst Hm].
  change (String.eqb "scd4x" "scd4x") with true. cbv iota.
  rewrite Hst, Hm.
  unfold bind, get_self, modify, addLog, emit, ret, call,
    schedule_task_device_timer.
  rewrite (code_on_file _ Hcode).
  destruct (String.eqb (parseStringKeepCase str 3) (factoryResetCode (self w)));
    [| reflexivity].
  cbn. rewrite Hd.
  destruct (stopPeriodicMeasurement d) as [[] d']; cbn;
    destruct (String.eqb (parseString str 2) "selftest"); reflexivity.
Qed.

End MaintenanceGate.

Section GateClaims.

Context {S : Type} {driver : SCD4x S} {host : Host}.

Lemma confirmation_code_on_file (selftest : bool) (sn : list ascii) :
  confirmation_code selftest sn <> "".
Proof.
  unfold confirmation_code, append_char.
  destruct (negb (Ascii.eqb (char_at sn 10) Ascii.zero)), selftest; discriminate.
Qed.

(** The byte selection spelled out: bytes 3, 1, 10, 6 for the self test,
    bytes 1, 3, 7, 10 for the factory reset, the literal [2022] when
    byte 10 of the serial buffer is NUL. *)
Lemma confirmation_code_bytes (selftest : bool) (sn : list ascii) :
  confirmation_code selftest sn =
  "Scd4x" +:+
  (if Ascii.eqb (char_at sn 10) Ascii.zero then "2022"
   else if selftest
        then string_of_list_ascii
               [char_at sn 3; char_at sn 1; char_at sn 10; char_at sn 6]
        else string_of_list_ascii
               [char_at sn 1; char_at sn 3; char_at sn 7; char_at sn 10]) +:+
  (if selftest then "SelF" else "reseT").
Proof.
  unfold confirmation_code, append_char.
  destruct (Ascii.eqb (char_at sn 10) Ascii.zero), selftest; reflexivity.
Qed.

(** C5. A [scd4x,factoryreset] or [scd4x,selftest] command arriving while
    no confirmation code is on file derives the code from fixed bytes of
    the cached serial number (3, 1, 10, 6 for the self test; 1, 3, 7, 10
    for the factory reset; the literal 2022 when no serial number is in
    the buffer), stores it, logs it at error level and returns success;
    no driver call is made and nothing else of the handle changes. *)
Theorem first_invocation_generates_code (ev : EventStruct) (str : string) (w : world S) :
  parseString str 1 = "scd4x" ->
  is_maintenance (parseString str 2) ->
  factoryResetCode (self w) = "" ->
  let doSelftest := String.eqb (parseString str 2) "selftest" in
  let sn := serialNumber (self w) in
  let code :=
    "Scd4x" +:+
    (if Ascii.eqb (char_at sn 10) Ascii.zero then "2022"
     else if doSelftest
          then string_of_list_ascii
                 [char_at sn 3; char_at sn 1; char_at sn 10; char_at sn 6]
          else string_of_list_ascii
                 [char_at sn 1; char_at sn 3; char_at sn 7; char_at sn 10]) +:+
    (if doSelftest then "SelF" else "reseT") in
  exists evs,
    plugin_write ev str w =
      Some (true, {| self := set_factoryResetCode code (self w);
                     UserVar := UserVar w |}, evs) /\
    log_lines evs =
      [(LOG_LEVEL_ERROR,
        "SCD4x: " +:+
        (if doSelftest then "Selftest code: " else "Factory reset code: ") +:+
        code)] /\
    drv_calls evs = [] /\
    timers evs = [].
Proof.
  intros Hcmd Hsub Hcode doSelftest sn code.
  rewrite (plugin_write_generate ev str w Hcmd Hsub Hcode).
  fold doSelftest. fold sn.
  rewrite (confirmation_code_bytes doSelftest sn). fold code.
  eexists. split; [reflexivity |]. repeat split.
Qed.

(** C1. A [scd4x,factoryreset] or [scd4x,selftest] command arriving while
    a confirmation code is on file compares its third token, case kept,
    with the stored code.  On a match the driver's
    [stopPeriodicMeasurement] is called, and if that succeeds the handle
    is marked uninitialised, the first-read discard is armed, the flag
    of the requested operation is set, a timer after the settle delay is
    requested and the call succeeds.  On a mismatch the call fails
    without touching the driver.  Either way the stored code is cleared,
    so the next maintenance command generates a code again. *)
Theorem second_invocation_confirms (ev : EventStruct) (str : string)
    (w : world S) (d : S) :
  parseString str 1 = "scd4x" ->
  is_maintenance (parseString str 2) ->
  factoryResetCode (self w) <> "" ->
  scd4x (self w) = Some d ->
  exists ok w' evs,
    plugin_write ev str w = Some (ok, w', evs) /\
    factoryResetCode (self w') = "" /\
    (parseStringKeepCase str 3 = factoryResetCode (self w) ->
       drv_calls evs =
         [D_stopPeriodicMeasurement (fst (stopPeriodicMeasurement d))] /\
       (fst (stopPeriodicMeasurement d) = true ->
          ok = true /\
          initialized (self w') = false /\
          firstRead (self w') = true /\
          (parseString str 2 = "selftest" -> mustRunSelfTest (self w') = true) /\
          (parseString str 2 = "factoryreset" ->
             mustRunFactoryReset (self w') = true) /\
          timers evs = [(TaskIndex ev, P135_STOP_MEASUREMENT_DELAY)])) /\
    (parseStringKeepCase str 3 <> factoryResetCode (self w) ->
       ok = false /\ drv_calls evs = [] /\ timers evs = [] /\
       self w' = set_factoryResetCode "" (self w)) /\
    (forall ev2 str2,
       parseString str2 1 = "scd4x" ->
       is_maintenance (parseString str2 2) ->
       exists w2 evs2,
         plugin_write ev2 str2 w' = Some (true, w2, evs2) /\
         factoryResetCode (self w2) =
           confirmation_code (String.eqb (parseString str2 2) "selftest")
             (serialNumber (self w'))).
Proof.
  intros Hcmd Hsub Hcode Hd.
  pose proof (plugin_write_confirm ev str w d Hcmd Hsub Hcode Hd) as Hrun.
  cbv zeta in Hrun.
  assert (Hnext : forall w', factoryResetCode (self w') = "" ->
            forall ev2 str2,
              parseString str2 1 = "scd4x" ->
              is_maintenance (parseString str2 2) ->
              exists w2 evs2,
                plugin_write ev2 str2 w' = Some (true, w2, evs2) /\
                factoryResetCode (self w2) =
                  confirmation_code (String.eqb (parseString str2 2) "selftest")
                    (serialNumber (self w'))).
  { intros w' Hw' ev2 str2 H1 H2.
    rewrite (plugin_write_generate ev2 str2 w' H1 H2 Hw').
    eexists _, _. split; reflexivity. }
  destruct (String.eqb (parseStringKeepCase str 3) (factoryResetCode (self w)))
    eqn:Hcmp.
  - apply String.eqb_eq in Hcmp.
    destruct (stopPeriodicMeasurement d) as [stopped d'] eqn:Hstop.
    cbn [fst snd] in *. destruct stopped.
    + eexists _, _, _. split; [exact Hrun |].
      split; [reflexivity |]. split; [| split].
      * intros _. split; [reflexivity |]. intros _.
        split; [reflexivity |].
        destruct Hsub as [Hs | Hs]; rewrite Hs; cbn;
          repeat split; intros; try reflexivity; discriminate.
      * intros Hne. contradiction.
      * apply Hnext. reflexivity.
    + eexists _, _, _. split; [exact Hrun |].
      split; [reflexivity |]. split; [| split].
      * intros _. split; [reflexivity |]. intros Hf. discriminate Hf.
      * intros Hne. contradiction.
      * apply Hnext. reflexivity.
  - apply String.eqb_neq in Hcmp.
    eexists _, _, _. split; [exact Hrun |].
    split; [reflexivity |]. split; [| split].
    + intros He. contradiction.
    + intros _. repeat split.
    + apply Hnext. reflexivity.
Qed.

(** C10. On the confirming invocation the operation that gets armed is
    the one named by that invocation alone: after a first maintenance
    command generated the code, a second one echoing it arms the self
    test when it says [selftest] and the factory reset when it says
    [factoryreset], whichever sub-command generated the code. *)
Theorem armed_operation_follows_second_command (ev1 ev2 : EventStruct)
    (str1 str2 : string) (w : world S) (d : S) :
  parseString str1 1 = "scd4x" ->
  is_maintenance (parseString str1 2) ->
  factoryResetCode (self w) = "" ->
  scd4x (self w) = Some d ->
  parseString str2 1 = "scd4x" ->
  is_maintenance (parseString str2 2) ->
  parseStringKeepCase str2 3 =
    confirmation_code (String.eqb (parseString str1 2) "selftest")
      (serialNumber (self w)) ->
  fst (stopPeriodicMeasurement d) = true ->
  exists w1 evs1 w2 evs2,
    plugin_write ev1 str1 w = Some (true, w1, evs1) /\
    plugin_write ev2 str2 w1 = Some (true, w2, evs2) /\
    mustRunSelfTest (self w2) =
      (String.eqb (parseString str2 2) "selftest" || mustRunSelfTest (self w)) /\
    mustRunFactoryReset (self w2) =
      (String.eqb (parseString str2 2) "factoryreset"
       || mustRunFactoryReset (self w)).
Proof.
  intros Hc1 Hs1 Hcode Hd Hc2 Hs2 Hecho Hstop.
  pose proof (plugin_write_generate ev1 str1 w Hc1 Hs1 Hcode) as H1.
  cbv zeta in H1.
  set (code := confirmation_code (String.eqb (parseString str1 2) "selftest")
                 (serialNumber (self w))) in *.
  set (w1 := {| self := set_factoryResetCode code (self w);
                UserVar := UserVar w |}) in *.
  assert (Hon : factoryResetCode (self w1) <> "")
    by apply confirmation_code_on_file.
  assert (Hd1 : scd4x (self w1) = Some d) by exact Hd.
  pose proof (plugin_write_confirm ev2 str2 w1 d Hc2 Hs2 Hon Hd1) as H2.
  cbv zeta in H2.
  assert (Hcmp : String.eqb (parseStringKeepCase str2 3)
                   (factoryResetCode (self w1)) = true)
    by (apply String.eqb_eq; exact Hecho).
  rewrite Hcmp, Hstop in H2.
  eexists _, _, _, _. split; [exact H1 |]. split; [exact H2 |].
  destruct Hs2 as [Hs | Hs]; rewrite Hs; cbn; split; reflexivity.
Qed.

End GateClaims.

(** ** The measurement cycle of [plugin_read] *)

Section ReadCycle.

Context {S : Type} {driver : SCD4x S} {host : Host}.

Lemma wrap16_small (z : Z) : 0 < z < 65536 -> wrap16 z = z.
Proof. intros H. unfold wrap16. apply Z.mod_small. lia. Qed.

(** One read on an initialised handle: the handle stays initialised; a
    successful [readMeasurement] writes the slots, clears the first-read
    flag and succeeds unless that flag was set; otherwise the flag is
    kept. *)
Lemma read_step (ev : EventStruct) (w w' : world S) (r : bool) (evs : list event) :
  initialized (self w) = true ->
  plugin_read ev w = Some (r, w', evs) ->
  initialized (self w') = true /\
  (sampled evs ->
     r = negb (firstRead (self w)) /\ firstRead (self w') = false /\
     slots_written ev evs w') /\
  (~ sampled evs -> r = false /\ firstRead (self w') = firstRead (self w)).
Proof.
  intros Hi H. unfold_read H. rewrite Hi in H.
  split_run H; cbn; (split; [exact Hi |]); unfold sampled; cbn; split;
    intros Hs;
    try (exfalso; apply Hs; cbn; tauto);
    try (exfalso; cbn in Hs; intuition discriminate);
    try (split; reflexivity).
  all: split; [reflexivity |]; split; [reflexivity |].
  all: unfold slots_written; cbn.
  - exists [D_measureSingleShot false]. eexists _, _, _.
    split; [reflexivity |].
    rewrite lookup_insert_ne by lia. rewrite lookup_insert_ne by lia.
    rewrite lookup_insert_eq.
    rewrite lookup_insert_ne by lia. rewrite lookup_insert_eq.
    rewrite lookup_insert_eq. auto.
  - exists []. eexists _, _, _.
    split; [reflexivity |].
    rewrite lookup_insert_ne by lia. rewrite lookup_insert_ne by lia.
    rewrite lookup_insert_eq.
    rewrite lookup_insert_ne by lia. rewrite lookup_insert_eq.
    rewrite lookup_insert_eq. auto.
Qed.

(** With a driver attached a read returns, and the driver stays
    attached. *)
Lemma plugin_read_returns (ev : EventStruct) (w : world S) (d : S) :
  scd4x (self w) = Some d ->
  exists r w' evs d',
    plugin_read ev w = Some (r, w', evs) /\ scd4x (self w') = Some d'.
Proof.
  intros Hd. unfold_ops. split_goal; try congruence; eauto 10.
Qed.

(** C8. On an initialised handle a read that obtains no measurement
    returns failure and asks the scheduler for exactly one re-invocation,
    after a non-zero delay: the extended delay when a completed read was
    expected (no single shot was triggered by this call) and the first
    read is behind; otherwise the single-shot, low-power or normal delay
    of the configured mode.  The timing macros are those of the plugin
    header, non-zero values of the [uint16_t] delay variable. *)
Theorem repoll_after_missed_read (ev : EventStruct) (w : world S) (d : S) :
  0 < P135_EXTEND_MEASURE_TIME < 65536 ->
  0 < P135_SINGLE_SHOT_MEASURE_TIME < 65536 ->
  0 < P135_LOW_POWER_MEASURE_TIME < 65536 ->
  0 < P135_NORMAL_MEASURE_TIME < 65536 ->
  scd4x (self w) = Some d ->
  initialized (self w) = true ->
  exists r w' evs,
    plugin_read ev w = Some (r, w', evs) /\
    (~ sampled evs ->
       let delay :=
         if negb (just_triggered evs) && negb (firstRead (self w))
         then P135_EXTEND_MEASURE_TIME
         else if _useSingleShot (self w) then P135_SINGLE_SHOT_MEASURE_TIME
         else if _lowPowerMeasurement (self w) then P135_LOW_POWER_MEASURE_TIME
         else P135_NORMAL_MEASURE_TIME in
       r = false /\ timers evs = [(TaskIndex ev, delay)] /\ delay <> 0).
Proof.
  intros Hx Hs Hl Hn Hd Hi.
  destruct (plugin_read_returns ev w d Hd) as (r & w' & evs & d' & H & _).
  exists r, w', evs. split; [exact H |].
  unfold_read H. rewrite Hi in H. unfold repoll_delay in H.
  split_run H; unfold sampled, just_triggered; cbn; intros Hns;
    try (exfalso; apply Hns; cbn; tauto);
    use_equations; cbn;
    rewrite ?wrap16_small in * by assumption;
    try (exfalso; cbn in *; lia);
    (split; [reflexivity |]); (split; [reflexivity | lia]).
Qed.

(** C6, as the code has it.  On an initialised single-shot handle with
    a driver, a read while no shot is pending first calls the driver's
    [measureSingleShot]; when the driver accepts, the shot is marked
    pending, no measurement read is attempted and the read returns
    failure.  A read while a shot is pending makes no
    [measureSingleShot] call. *)
Theorem single_shot_trigger (ev : EventStruct) (w : world S) (d : S) :
  _useSingleShot (self w) = true ->
  initialized (self w) = true ->
  scd4x (self w) = Some d ->
  exists r w' evs,
    plugin_read ev w = Some (r, w', evs) /\
    (singleShotStarted (self w) = false ->
       hd_error (drv_calls evs) =
         Some (D_measureSingleShot (fst (measureSingleShot d))) /\
       (fst (measureSingleShot d) = true ->
          r = false /\ singleShotStarted (self w') = true /\
          drv_calls evs = [D_measureSingleShot true])) /\
    (singleShotStarted (self w) = true ->
       forall b, ~ In (D_measureSingleShot b) (drv_calls evs)).
Proof.
  intros Hu Hi Hd.
  destruct (plugin_read_returns ev w d Hd) as (r & w' & evs & d' & H & _).
  exists r, w', evs. split; [exact H |].
  unfold_read H. rewrite Hi, Hu in H.
  destruct (singleShotStarted (self w)) eqn:Hst; cbn in H.
  - split; [intros Hf; discriminate Hf |]. intros _ b.
    split_run H; cbn; intuition discriminate.
  - split; [| intros Hf; discriminate Hf]. intros _.
    rewrite Hd in H. destruct (measureSingleShot d) as [accepted d1] eqn:Hm.
    split_run H; cbn; (split; [reflexivity |]); intros Ha;
      try discriminate Ha; repeat split; reflexivity.
Qed.

(** *** The first sample in a run of calls *)

Lemma run_cons (c : invocation) (cs : list invocation) (w : world S) :
  run (c :: cs) w =
    match dispatch c w with
    | None => ([], None)
    | Some (r, w', evs) =>
        ({| before := w; what := c; result := r; after := w';
            effects := evs |} :: fst (run cs w'),
         snd (run cs w'))
    end.
Proof.
  cbn [run].
  destruct (dispatch c w) as [[[r w'] evs] |]; [| reflexivity].
  destruct (run cs w'). reflexivity.
Qed.

(** Only a read samples the sensor, and only a sampling read or a
    confirmed maintenance command (which leaves the handle
    uninitialised) changes the first-read flag. *)
Lemma step_discard (c : invocation) (w w' : world S) (r : bool) (evs : list event) :
  initialized (self w) = true ->
  dispatch c w = Some (r, w', evs) ->
  (sampled evs ->
     r = negb (firstRead (self w)) /\ firstRead (self w') = false /\
     initialized (self w') = true /\
     slots_written (event_of c) evs w' /\
     exists ev, c = PLUGIN_READ ev) /\
  (~ sampled evs -> initialized (self w') = true ->
     firstRead (self w') = firstRead (self w)).
Proof.
  intros Hi H. destruct c as [ev | ev str | ev str]; cbn [dispatch] in H.
  - destruct (read_step ev w w' r evs Hi H) as (Hi' & Hyes & Hno). split.
    + intros Hs. destruct (Hyes Hs) as (Hr & Hf & Hw). eauto 10.
    + intros Hs _. exact (proj2 (Hno Hs)).
  - unfold plugin_write, bind, get_self, modify, addLog, emit, ret, call,
      schedule_task_device_timer in H. cbv zeta in H.
    split_run H; unfold sampled; cbn; split;
      try (intros Hs; exfalso; cbn in Hs; intuition discriminate);
      intros _ Hi'; first [reflexivity | discriminate Hi'].
  - unfold plugin_get_config_value, bind, call, ret in H.
    split_run H; unfold sampled; cbn; split;
      try (intros Hs; exfalso; cbn in Hs; intuition discriminate);
      intros _ _; reflexivity.
Qed.

(** In a run on an initialised handle that stays initialised, up to and
    including the first call in which [readMeasurement] succeeds: that
    call is a read, returns the negation of the first-read flag the run
    started with, writes the slots and clears the flag. *)
Lemma first_sampled_call (cs : list invocation) :
  forall (w : world S) (j : nat) (sj : step S),
    initialized (self w) = true ->
    fst (run cs w) !! j = Some sj ->
    sampled (effects sj) ->
    (forall k sk, (k < j)%nat -> fst (run cs w) !! k = Some sk ->
                  ~ sampled (effects sk) /\ initialized (self (after sk)) = true) ->
    result sj = negb (firstRead (self w)) /\
    slots_written (event_of (what sj)) (effects sj) (after sj) /\
    (exists ev, what sj = PLUGIN_READ ev) /\
    initialized (self (after sj)) = true /\
    firstRead (self (after sj)) = false /\
    fst (run (drop (Datatypes.S j) cs) (after sj)) =
      drop (Datatypes.S j) (fst (run cs w)).
Proof.
  induction cs as [| c cs IH]; intros w j sj Hi Hj Hs Hbefore.
  - cbn in Hj. discriminate Hj.
  - rewrite run_cons in Hj, Hbefore |- *.
    destruct (dispatch c w) as [[[r w'] evs] |] eqn:Hr;
      [| cbn in Hj; discriminate Hj].
    destruct (step_discard c w w' r evs Hi Hr) as (Hyes & Hno).
    cbn [fst] in *. destruct j as [| j].
    + cbn in Hj. injection Hj as <-. cbn in *.
      destruct (Hyes Hs) as (-> & Hf & Hi' & Hw & Hread).
      rewrite drop_0. auto 10.
    + cbn in Hj.
      destruct (Hbefore 0%nat _ ltac:(lia) eq_refl) as [Hns Hi']. cbn in Hns, Hi'.
      pose proof (Hno Hns Hi') as Hf.
      destruct (IH w' j sj Hi' Hj Hs) as (H1 & H2 & H3 & H4 & H5 & H6).
      { intros k sk Hk Hlk. apply (Hbefore (Datatypes.S k) sk); [lia | exact Hlk]. }
      rewrite Hf in H1. auto 10.
Qed.

(** C2. On an initialised handle whose first-read discard is armed (as
    it is after construction and after every re-initialisation), in any
    run of calls during which the handle stays initialised, the first
    call to [plugin_read] in which the driver's [readMeasurement]
    succeeds writes the three output slots with the sample and returns
    failure; the next call in which it succeeds writes the slots and
    returns success. *)
Theorem first_sample_discarded (cs : list invocation) (w : world S)
    (i j : nat) (si sj : step S) :
  initialized (self w) = true ->
  firstRead (self w) = true ->
  fst (run cs w) !! i = Some si ->
  fst (run cs w) !! j = Some sj ->
  (i < j)%nat ->
  sampled (effects si) ->
  sampled (effects sj) ->
  (forall k sk, (k < j)%nat -> fst (run cs w) !! k = Some sk ->
                initialized (self (after sk)) = true /\
                (k <> i -> ~ sampled (effects sk))) ->
  (exists evi, what si = PLUGIN_READ evi /\
     result si = false /\ slots_written evi (effects si) (after si)) /\
  (exists evj, what sj = PLUGIN_READ evj /\
     result sj = true /\ slots_written evj (effects sj) (after sj)).
Proof.
  intros Hi Hf Hsi Hsj Hij Hyi Hyj Hquiet.
  destruct (first_sampled_call cs w i si Hi Hsi Hyi)
    as (Hri & Hwi & [evi Hei] & Hi' & Hf' & Hrest).
  { intros k sk Hk Hlk. destruct (Hquiet k sk ltac:(lia) Hlk) as [H1 H2].
    split; [apply H2; lia | exact H1]. }
  rewrite Hf in Hri. rewrite Hei in Hwi. split; [eauto |].
  assert (Hsj' : fst (run (drop (Datatypes.S i) cs) (after si))
                   !! (j - Datatypes.S i)%nat = Some sj).
  { rewrite Hrest, lookup_drop.
    replace (Datatypes.S i + (j - Datatypes.S i))%nat with j by lia.
    exact Hsj. }
  destruct (first_sampled_call _ (after si) _ sj Hi' Hsj' Hyj)
    as (Hrj & Hwj & [evj Hej] & _).
  { intros k sk Hk Hlk. rewrite Hrest, lookup_drop in Hlk.
    destruct (Hquiet (Datatypes.S i + k)%nat sk ltac:(lia) Hlk) as [H1 H2].
    split; [apply H2; lia | exact H1]. }
  rewrite Hf' in Hrj. rewrite Hej in Hwj. eauto.
Qed.

End ReadCycle.

(** ** Construction and the undetected sensor *)

Section Construction.

Context {S : Type} {driver : SCD4x S} {host : Host}.

(** C7, as the code has it.  The constructor always returns.  It calls
    [setSensorAltitude] exactly when the sensor was detected and the
    configured altitude is non-zero, and [setTemperatureOffset] exactly
    when the sensor was detected and the configured offset is not
    essentially equal to zero; each call carries the configured value.
    With a zero or near-zero value, or an undetected sensor, the call is
    not made. *)
Theorem overrides_applied_when_detected (taskIndex : nat) (sensorType altitude : Z)
    (tempOffset : float) (autoCalibrate lowPower singleShot : bool)
    (uv : gmap nat float) :
  exists w0 evs0,
    P135_data_struct_new taskIndex sensorType altitude tempOffset autoCalibrate
      lowPower singleShot uv = Some (tt, w0, evs0) /\
    ((exists a, In (D_setSensorAltitude a) (drv_calls evs0)) <->
     detected sensorType autoCalibrate = true /\ altitude <> 0) /\
    (forall a, In (D_setSensorAltitude a) (drv_calls evs0) -> a = altitude) /\
    ((exists f, In (D_setTemperatureOffset f) (drv_calls evs0)) <->
     detected sensorType autoCalibrate = true /\
     essentiallyEqual tempOffset (S754_zero false) = false) /\
    (forall f, In (D_setTemperatureOffset f) (drv_calls evs0) -> f = tempOffset).
Proof.
  unfold detected. unfold_ops. split_goal.
  all: eexists _, _; (split; [reflexivity |]); cbn.
  all: rewrite ?negb_true_iff, ?negb_false_iff, ?Z.eqb_eq, ?Z.eqb_neq in *.
  all: repeat match goal with
              | E : begin _ _ _ = _ |- _ => rewrite E; clear E
              end; cbn.
  all: split; [| split; [| split]].
  all: try (intros a Ha; cbn in Ha; intuition congruence).
  all: split;
    [ intros [a Ha]; cbn in Ha;
      first [ split; [reflexivity | assumption]
            | exfalso; intuition discriminate ]
    | intros [Hdet Hne];
      first [ discriminate Hdet | congruence
            | eexists; cbn; eauto 10 ] ].
Qed.

(** A handle that is not initialised and has no maintenance request
    pending ignores reads and ordinary writes. *)
Lemma inert_step (c : invocation) (w : world S) :
  initialized (self w) = false ->
  mustRunFactoryReset (self w) = false ->
  mustRunSelfTest (self w) = false ->
  ordinary c ->
  dispatch c w = Some (false, w, []).
Proof.
  intros Hi Hr Ht Hc. destruct c as [ev | ev str | ev str]; cbn in Hc.
  - cbn [dispatch]. unfold_ops. rewrite Hi, Hr. cbn. rewrite Ht. reflexivity.
  - cbn [dispatch]. unfold plugin_write.
    destruct (String.eqb (parseString str 1) "scd4x") eqn:Hcmd; [| reflexivity].
    apply String.eqb_eq in Hcmd.
    destruct (String.eqb (parseString str 2) "storesettings") eqn:Hst.
    { apply String.eqb_eq in Hst. exfalso. apply Hc. split; [exact Hcmd | tauto]. }
    destruct (String.eqb (parseString str 2) "factoryreset") eqn:Hfr.
    { apply String.eqb_eq in Hfr. exfalso. apply Hc.
      split; [exact Hcmd |]. right. left. exact Hfr. }
    destruct (String.eqb (parseString str 2) "selftest") eqn:Hse.
    { apply String.eqb_eq in Hse. exfalso. apply Hc.
      split; [exact Hcmd |]. right. right. exact Hse. }
    reflexivity.
  - contradiction.
Qed.

Lemma inert_run (cs : list invocation) (w : world S) :
  initialized (self w) = false ->
  mustRunFactoryReset (self w) = false ->
  mustRunSelfTest (self w) = false ->
  Forall ordinary cs ->
  exists steps,
    run cs w = (steps, Some w) /\
    length steps = length cs /\
    Forall (fun s => result s = false /\ effects s = [] /\
                     before s = w /\ after s = w) steps.
Proof.
  intros Hi Hr Ht Hcs. induction Hcs as [| c cs Hc Hcs IH].
  - exists []. cbn. auto.
  - destruct IH as (steps & Hrun & Hlen & Hall).
    cbn [run]. rewrite (inert_step c w Hi Hr Ht Hc), Hrun.
    eexists. split; [reflexivity |]. split; [cbn; lia |].
    constructor; [cbn; auto | exact Hall].
Qed.

End Construction.

(** ** Configuration queries *)

Section Queries.

Context {S : Type} {driver : SCD4x S} {host : Host}.

(** C9. [plugin_get_config_value] answers [getaltitude] with the
    driver's altitude in decimal, [gettempoffset] with the driver's
    temperature offset formatted by [toString] with 2 decimals,
    [getdataready] and [getselfcalibration] with the driver's boolean as
    1 or 0, each with a success result; any other keyword returns
    failure, makes no driver call and hands the string back unchanged. *)
Theorem config_value_by_keyword (ev : EventStruct) (str : string)
    (w : world S) (d : S) :
  scd4x (self w) = Some d ->
  let var := parseString str 1 in
  let answered {A} (get : S -> A * S) (rec : A -> drv_call) (show : A -> string) :=
    plugin_get_config_value ev str w =
      Some ((true, show (fst (get d))),
            {| self := set_scd4x (Some (snd (get d))) (self w);
               UserVar := UserVar w |},
            [Drv (rec (fst (get d)))]) in
  (var = "getaltitude" ->
     answered getSensorAltitude D_getSensorAltitude String_of_Z) /\
  (var = "gettempoffset" ->
     answered getTemperatureOffset D_getTemperatureOffset (fun t => toString t 2)) /\
  (var = "getdataready" ->
     answered getDataReadyStatus D_getDataReadyStatus String_of_bool) /\
  (var = "getselfcalibration" ->
     answered getAutomaticSelfCalibrationEnabled
       D_getAutomaticSelfCalibrationEnabled String_of_bool) /\
  (var <> "getaltitude" -> var <> "gettempoffset" ->
   var <> "getdataready" -> var <> "getselfcalibration" ->
     plugin_get_config_value ev str w = Some ((false, str), w, [])).
Proof.
  intros Hd var answered. subst answered. cbv beta.
  unfold plugin_get_config_value. fold var.
  repeat split.
  - intros ->. unfold bind, call, ret. cbn. rewrite Hd.
    destruct (getSensorAltitude d). reflexivity.
  - intros ->. unfold bind, call, ret. cbn. rewrite Hd.
    destruct (getTemperatureOffset d). reflexivity.
  - intros ->. unfold bind, call, ret. cbn. rewrite Hd.
    destruct (getDataReadyStatus d). reflexivity.
  - intros ->. unfold bind, call, ret. cbn. rewrite Hd.
    destruct (getAutomaticSelfCalibrationEnabled d). reflexivity.
  - intros H1 H2 H3 H4.
    apply String.eqb_neq in H1, H2, H3, H4. rewrite H1, H2, H3, H4.
    reflexivity.
Qed.

End Queries.

(** ** The gate as an invariant of every run *)

Section GateInvariant.

Context {S : Type} {driver : SCD4x S} {host : Host}.

(** What a step can do to the gate, by kind of call. *)
Lemma read_keeps_gate (ev : EventStruct) (w w' : world S) (r : bool)
    (evs : list event) :
  plugin_read ev w = Some (r, w', evs) ->
  (forall st r0, In (perform_call st r0) (drv_calls evs) ->
                 pending st (self w) = true) /\
  (forall st, pending st (self w') = pending st (self w)) /\
  factoryResetCode (self w') = factoryResetCode (self w).
Proof.
  intros H. unfold_read H.
  split_run H; cbn; (split; [| split; [intros []; reflexivity | reflexivity]]);
    intros [] r0 Hin; cbn in *; intuition (discriminate || congruence).
Qed.

Lemma config_keeps_gate (ev : EventStruct) (str : string) (w w' : world S)
    (r : bool * string) (evs : list event) :
  plugin_get_config_value ev str w = Some (r, w', evs) ->
  (forall st r0, ~ In (perform_call st r0) (drv_calls evs)) /\
  (forall st, pending st (self w') = pending st (self w)) /\
  factoryResetCode (self w') = factoryResetCode (self w).
Proof.
  intros H. unfold plugin_get_config_value, bind, call, ret in H.
  split_run H; cbn; (split; [| split; [intros []; reflexivity | reflexivity]]);
    intros [] r0 Hin; cbn in *; intuition discriminate.
Qed.

Lemma write_moves_gate (ev : EventStruct) (str : string) (w w' : world S)
    (r : bool) (evs : list event) :
  plugin_write ev str w = Some (r, w', evs) ->
  (forall st r0, ~ In (perform_call st r0) (drv_calls evs)) /\
  (forall st, pending st (self w') = true ->
     pending st (self w) = true \/
     (parseString str 1 = "scd4x" /\
      parseString str 2 = keyword st /\
      factoryResetCode (self w) <> "" /\
      parseStringKeepCase str 3 = factoryResetCode (self w) /\
      In (D_stopPeriodicMeasurement true) (drv_calls evs))) /\
  (factoryResetCode (self w') <> "" ->
     factoryResetCode (self w') = factoryResetCode (self w) \/
     (parseString str 1 = "scd4x" /\
      is_maintenance (parseString str 2) /\
      factoryResetCode (self w) = "")).
Proof.
  intros H. unfold plugin_write in H. cbv zeta in H. revert H.
  destruct (String.eqb (parseString str 1) "scd4x") eqn:Hcmd;
    [apply String.eqb_eq in Hcmd | apply String.eqb_neq in Hcmd].
  2: { intros H. injection H as <- <- <-. cbn. repeat split; auto. }
  destruct (String.eqb (parseString str 2) "storesettings") eqn:Hst.
  { intros H. unfold call in H. split_run H; cbn.
    repeat split; auto. intros [] r0 Hin; cbn in Hin; intuition discriminate. }
  destruct (String.eqb (parseString str 2) "selftest") eqn:Hse;
    [apply String.eqb_eq in Hse | apply String.eqb_neq in Hse];
  (destruct (String.eqb (parseString str 2) "factoryreset") eqn:Hfr;
    [apply String.eqb_eq in Hfr | apply String.eqb_neq in Hfr]);
  cbn [orb]; intros H;
  unfold bind, get_self, modify, addLog, emit, ret, call,
    schedule_task_device_timer in H;
  split_run H; cbn;
  repeat match goal with
         | E : String.eqb _ _ = true |- _ => apply String.eqb_eq in E
         | E : String.eqb _ _ = false |- _ => apply String.eqb_neq in E
         end.
  all: split; [intros [] r0 Hin; cbn in Hin; intuition discriminate |].
  all: split;
    [ intros [] Hp; cbn in Hp |- *;
      first [ left; exact Hp
            | right; repeat split; auto; cbn; congruence ]
    | intros Hc;
      first [ left; reflexivity
            | right; repeat split; auto; unfold is_maintenance; tauto
            | exfalso; apply Hc; reflexivity ] ].
Qed.

Lemma dispatch_gate (c : invocation) (w w' : world S) (r : bool)
    (evs : list event) :
  dispatch c w = Some (r, w', evs) ->
  let s := {| before := w; what := c; result := r; after := w'; effects := evs |} in
  (forall st, performs st s -> pending st (self w) = true) /\
  (forall st, pending st (self w') = true ->
     pending st (self w) = true \/
     (factoryResetCode (self w) <> "" /\ confirms st s)) /\
  (factoryResetCode (self w') <> "" ->
     factoryResetCode (self w') = factoryResetCode (self w) \/
     generates (factoryResetCode (self w')) s).
Proof.
  intros H s. destruct c as [ev | ev str | ev str]; cbn [dispatch] in H.
  - destruct (read_keeps_gate ev w w' r evs H) as (Hp & Hflag & Hcode).
    split; [| split].
    + intros st [r0 Hin]. exact (Hp st r0 Hin).
    + intros st Hst. left. rewrite <- Hflag. exact Hst.
    + intros _. left. exact Hcode.
  - destruct (write_moves_gate ev str w w' r evs H) as (Hp & Hflag & Hcode).
    split; [| split].
    + intros st [r0 Hin]. destruct (Hp st r0 Hin).
    + intros st Hst. destruct (Hflag st Hst) as [Hold | (H1 & H2 & H3 & H4 & H5)].
      * left. exact Hold.
      * right. split; [exact H3 |]. exists ev, str. cbn. repeat split; auto.
    + intros Hne. destruct (Hcode Hne) as [Hold | (H1 & H2 & H3)].
      * left. exact Hold.
      * right. exists ev, str. cbn. repeat split; auto.
  - unfold bind, ret in H.
    destruct (plugin_get_config_value ev str w) as [[[r1 w1] e1] |] eqn:Hq;
      [| discriminate H].
    injection H as <- <- <-.
    destruct (config_keeps_gate ev str w w1 r1 e1 Hq) as (Hp & Hflag & Hcode).
    split; [| split].
    + intros st [r0 Hin]. cbn in Hin. rewrite app_nil_r in Hin.
      destruct (Hp st r0 Hin).
    + intros st Hst. left. rewrite <- Hflag. exact Hst.
    + intros _. left. exact Hcode.
Qed.

Lemma run_snoc (cs : list invocation) (c : invocation) :
  forall w0 : world S,
    run (cs ++ [c]) w0 =
      match snd (run cs w0) with
      | None => run cs w0
      | Some w =>
          match dispatch c w with
          | None => (fst (run cs w0), None)
          | Some (r, w', evs) =>
              (fst (run cs w0) ++
                 [{| before := w; what := c; result := r; after := w';
                     effects := evs |}],
               Some w')
          end
      end.
Proof.
  induction cs as [| c0 cs IH]; intros w0.
  - cbn [app run fst snd].
    destruct (dispatch c w0) as [[[r w'] evs] |]; reflexivity.
  - cbn [app run]. destruct (dispatch c0 w0) as [[[r0 w1] e0] |]; [| reflexivity].
    rewrite IH. destruct (run cs w1) as [steps [w |]]; cbn [fst snd].
    + destruct (dispatch c w) as [[[r w'] evs] |]; reflexivity.
    + reflexivity.
Qed.

Lemma authorised_mono (steps more : list (step S)) (st : bool) (k k' : nat) :
  authorised steps st k -> (k <= k')%nat -> authorised (steps ++ more) st k'.
Proof.
  intros (g & j & sg & sj & Hgj & Hjk & Hg & Hj & Hgen & Hconf) Hk.
  exists g, j, sg, sj. repeat split; try assumption; try lia.
  - apply lookup_app_l_Some. exact Hg.
  - apply lookup_app_l_Some. exact Hj.
Qed.

(** From a handle with no flag pending and no code on file, every
    destructive call of a run is authorised, and the bookkeeping holds
    at the end of the run. *)
Lemma gate_holds_along_run (w0 : world S) (cs : list invocation) :
  pending false (self w0) = false ->
  pending true (self w0) = false ->
  factoryResetCode (self w0) = "" ->
  (forall k sk st,
     fst (run cs w0) !! k = Some sk -> performs st sk ->
     authorised (fst (run cs w0)) st k) /\
  (forall w, snd (run cs w0) = Some w -> gate_invariant (fst (run cs w0)) w).
Proof.
  intros Hr Ht Hcode. induction cs as [| c cs [IHsteps IHend]] using rev_ind.
  - cbn. split.
    + intros k sk st Hk. discriminate Hk.
    + intros w Hw. injection Hw as <-. split.
      * intros [] Hp; congruence.
      * intros Hne. congruence.
  - rewrite run_snoc.
    destruct (run cs w0) as [steps [w |]] eqn:Hrun; cbn [fst snd] in *;
      [| split; [exact IHsteps | intros w Hw; discriminate Hw]].
    destruct (dispatch c w) as [[[r w'] evs] |] eqn:Hd; cbn [fst snd];
      [| split; [exact IHsteps | intros w1 Hw; discriminate Hw]].
    destruct (IHend w eq_refl) as [Hflags Hfile].
    destruct (dispatch_gate c w w' r evs Hd) as (Hperf & Hpend & Hgen).
    set (s := {| before := w; what := c; result := r; after := w';
                 effects := evs |}) in *.
    split.
    + intros k sk st Hk Hp.
      destruct (Nat.lt_ge_cases k (length steps)) as [Hlt | Hge].
      * rewrite lookup_app_l in Hk by exact Hlt.
        apply authorised_mono with (k := k); [| lia].
        exact (IHsteps k sk st Hk Hp).
      * rewrite lookup_app_r in Hk by exact Hge.
        destruct (k - length steps)%nat as [| n] eqn:Hn; [| discriminate Hk].
        cbn in Hk. injection Hk as <-.
        apply authorised_mono with (k := length steps); [| lia].
        apply Hflags. exact (Hperf st Hp).
    + intros w1 Hw. injection Hw as <-. split.
      * intros st Hst. rewrite length_app. cbn [length].
        destruct (Hpend st Hst) as [Hold | [Hne Hconf]].
        -- apply authorised_mono with (k := length steps); [| lia].
           exact (Hflags st Hold).
        -- destruct (Hfile Hne) as (g & sg & Hg & Hsg).
           exists g, (length steps), sg, s.
           pose proof (lookup_lt_Some _ _ _ Hg) as Hlen.
           repeat split; try assumption; try lia.
           ++ apply lookup_app_l_Some. exact Hg.
           ++ rewrite lookup_app_r by lia. rewrite Nat.sub_diag. reflexivity.
      * intros Hne. destruct (Hgen Hne) as [Hold | Hnew].
        -- rewrite Hold in Hne |- *.
           destruct (Hfile Hne) as (g & sg & Hg & Hsg).
           exists g, sg. split; [apply lookup_app_l_Some; exact Hg | exact Hsg].
        -- exists (length steps), s. split; [| exact Hnew].
           rewrite lookup_app_r by lia. rewrite Nat.sub_diag. reflexivity.
Qed.

(** The constructor returns, with the gate closed: no flag pending, no
    code on file, the first-read discard armed, and no destructive call
    made. *)
Lemma constructed_gate_closed (taskIndex : nat) (sensorType altitude : Z)
    (tempOffset : float) (autoCalibrate lowPower singleShot : bool)
    (uv : gmap nat float) :
  exists w0 evs0,
    P135_data_struct_new taskIndex sensorType altitude tempOffset autoCalibrate
      lowPower singleShot uv = Some (tt, w0, evs0) /\
    pending false (self w0) = false /\
    pending true (self w0) = false /\
    factoryResetCode (self w0) = "" /\
    firstRead (self w0) = true /\
    (forall st r, ~ In (perform_call st r) (drv_calls evs0)).
Proof.
  unfold_ops. split_goal.
  all: eexists _, _; (split; [reflexivity |]); cbn.
  all: repeat (split; [reflexivity |]).
  all: intros [] r Hin; cbn in Hin; intuition discriminate.
Qed.

(** The first-read discard is armed whenever the handle is not
    initialised, so it is armed each time the handle becomes
    initialised. *)
Lemma step_keeps_discard_armed (c : invocation) (w w' : world S) (r : bool)
    (evs : list event) :
  dispatch c w = Some (r, w', evs) ->
  (initialized (self w) = false -> firstRead (self w) = true) ->
  (initialized (self w') = false -> firstRead (self w') = true) /\
  (initialized (self w) = false -> initialized (self w') = true ->
   firstRead (self w') = true).
Proof.
  intros H Hinv. destruct c as [ev | ev str | ev str]; cbn [dispatch] in H.
  - unfold_read H.
    split_run H; cbn in *; split; intros; auto; congruence.
  - unfold plugin_write, bind, get_self, modify, addLog, emit, ret, call,
      schedule_task_device_timer in H. cbv zeta in H.
    split_run H; cbn in *; split; intros; auto; congruence.
  - unfold plugin_get_config_value, bind, call, ret in H.
    split_run H; cbn in *; split; intros; auto; congruence.
Qed.

Lemma discard_armed_at_initialisation (cs : list invocation) :
  forall (w : world S) (k : nat) (sk : step S),
    (initialized (self w) = false -> firstRead (self w) = true) ->
    fst (run cs w) !! k = Some sk ->
    initialized (self (before sk)) = false ->
    initialized (self (after sk)) = true ->
    firstRead (self (after sk)) = true.
Proof.
  induction cs as [| c cs IH]; intros w k sk Hinv Hk Hb Ha.
  - cbn in Hk. discriminate Hk.
  - cbn [run] in Hk.
    destruct (dispatch c w) as [[[r w'] evs] |] eqn:Hd;
      [| cbn in Hk; discriminate Hk].
    destruct (step_keeps_discard_armed c w w' r evs Hd Hinv) as [Hinv' Hturn].
    destruct (run cs w') as [steps final] eqn:Hrun. cbn [fst] in Hk.
    destruct k as [| k].
    + cbn in Hk. injection Hk as <-. cbn in *. auto.
    + cbn in Hk. apply (IH w' k sk Hinv'); [| exact Hb | exact Ha].
      rewrite Hrun. exact Hk.
Qed.

(** C4. In every run of reads, writes and queries on a constructed
    handle, a step in which the driver's [performFactoryReset] or
    [performSelfTest] is called is preceded by a maintenance command for
    that operation which echoed the code then on file and whose
    [stopPeriodicMeasurement] succeeded, itself preceded by the command
    that generated that code; the constructor makes no such call. *)
Theorem destructive_calls_are_authorised (taskIndex : nat) (sensorType altitude : Z)
    (tempOffset : float) (autoCalibrate lowPower singleShot : bool)
    (uv : gmap nat float) (cs : list invocation) :
  exists w0 evs0,
    P135_data_struct_new taskIndex sensorType altitude tempOffset autoCalibrate
      lowPower singleShot uv = Some (tt, w0, evs0) /\
    (forall st r, ~ In (perform_call st r) (drv_calls evs0)) /\
    (forall k sk st,
       fst (run cs w0) !! k = Some sk -> performs st sk ->
       authorised (fst (run cs w0)) st k).
Proof.
  destruct (constructed_gate_closed taskIndex sensorType altitude tempOffset
              autoCalibrate lowPower singleShot uv)
    as (w0 & evs0 & Hnew & Hr & Ht & Hcode & _ & Hquiet).
  exists w0, evs0. split; [exact Hnew |]. split; [exact Hquiet |].
  apply gate_holds_along_run; assumption.
Qed.

End GateInvariant.

(** ** Concrete runs on the simulated sensor *)

Section Runs.

#[local] Existing Instance Sim.host.

(** The simulated worlds are what the constructor builds. *)
Example simulated_worlds_are_constructed :
  option_map fst (Sim.built Sim.healthy 0 (S754_zero false) false false) =
    Some Sim.fresh /\
  option_map fst (Sim.built Sim.healthy 0 (S754_zero false) false true) =
    Some Sim.single /\
  option_map fst (Sim.built Sim.no_shot 0 (S754_zero false) false true) =
    Some Sim.reluctant /\
  option_map fst (Sim.built Sim.absent 0 (S754_zero false) false false) =
    Some Sim.undetected.
Proof. vm_compute. repeat split; reflexivity. Qed.

Lemma first_invocation_generates_code_witness :
  exists evs,
    plugin_write (driver := Sim.driver Sim.healthy) Sim.ev0
      "scd4x,factoryreset" Sim.fresh = Some (true, Sim.coded, evs) /\
    log_lines evs =
      [(LOG_LEVEL_ERROR, "SCD4x: Factory reset code: Scd4x137areseT")] /\
    drv_calls evs = [] /\
    timers evs = [].
Proof.
  exact (first_invocation_generates_code (driver := Sim.driver Sim.healthy)
           Sim.ev0 "scd4x,factoryreset" Sim.fresh
           eq_refl (or_introl eq_refl) eq_refl).
Defined.

Lemma second_invocation_confirms_witness :
  factoryResetCode (self Sim.coded) <> "" /\
  parseStringKeepCase "scd4x,factoryreset,Scd4x137areseT" 3 =
    factoryResetCode (self Sim.coded) /\
  exists w' evs,
    plugin_write (driver := Sim.driver Sim.healthy) Sim.ev0
      "scd4x,factoryreset,Scd4x137areseT" Sim.coded = Some (true, w', evs) /\
    factoryResetCode (self w') = "" /\
    initialized (self w') = false /\
    firstRead (self w') = true /\
    mustRunFactoryReset (self w') = true /\
    drv_calls evs = [D_stopPeriodicMeasurement true] /\
    timers evs = [(0%nat, 550)].
Proof.
  split; [discriminate |]. split; [reflexivity |].
  destruct (second_invocation_confirms (driver := Sim.driver Sim.healthy)
              Sim.ev0 "scd4x,factoryreset,Scd4x137areseT" Sim.coded Sim.healthy)
    as (ok & w' & evs & Hrun & Hclear & Hmatch & _).
  - reflexivity.
  - left. reflexivity.
  - discriminate.
  - reflexivity.
  - destruct (Hmatch eq_refl) as (Hcalls & Hstop).
    destruct (Hstop eq_refl) as (-> & Hi & Hf & _ & Hr & Ht).
    exists w', evs. repeat split; auto.
Defined.

Lemma armed_operation_follows_second_command_witness :
  exists w1 evs1 w2 evs2,
    plugin_write (driver := Sim.driver Sim.healthy) Sim.ev0
      "scd4x,factoryreset" Sim.fresh = Some (true, w1, evs1) /\
    plugin_write (driver := Sim.driver Sim.healthy) Sim.ev0
      "scd4x,selftest,Scd4x137areseT" w1 = Some (true, w2, evs2) /\
    mustRunSelfTest (self w2) = true /\
    mustRunFactoryReset (self w2) = false.
Proof.
  exact (armed_operation_follows_second_command
           (driver := Sim.driver Sim.healthy) Sim.ev0 Sim.ev0
           "scd4x,factoryreset" "scd4x,selftest,Scd4x137areseT"
           Sim.fresh Sim.healthy
           eq_refl (or_introl eq_refl) eq_refl eq_refl
           eq_refl (or_intror eq_refl) eq_refl eq_refl).
Defined.

Lemma repoll_after_missed_read_witness :
  initialized (self Sim.polling) = true /\
  exists r w' evs,
    plugin_read (driver := Sim.driver Sim.waiting) Sim.ev0 Sim.polling =
      Some (r, w', evs) /\
    (~ sampled evs ->
     r = false /\ timers evs = [(0%nat, 1000)] /\ 1000 <> 0).
Proof.
  split; [reflexivity |].
  destruct (repoll_after_missed_read (driver := Sim.driver Sim.waiting)
              Sim.ev0 Sim.polling Sim.waiting)
    as (r & w' & evs & Hrun & Hdelay).
  - split; reflexivity.
  - split; reflexivity.
  - split; reflexivity.
  - split; reflexivity.
  - reflexivity.
  - reflexivity.
  - exists r, w', evs. split; [exact Hrun |].
    intros Hns. specialize (Hdelay Hns).
    assert (He : evs = [Drv (D_readMeasurement false);
                        Log LOG_LEVEL_INFO "SCD4x: READ Scheduler started: +1000 ms.";
                        Timer 0 1000]).
    { vm_compute in Hrun. injection Hrun as _ _ <-. reflexivity. }
    subst evs. exact Hdelay.
Defined.

Lemma single_shot_trigger_witness :
  _useSingleShot (self Sim.single) = true /\
  singleShotStarted (self Sim.single) = false /\
  exists w' evs,
    plugin_read (driver := Sim.driver Sim.healthy) Sim.ev0 Sim.single =
      Some (false, w', evs) /\
    singleShotStarted (self w') = true /\
    drv_calls evs = [D_measureSingleShot true].
Proof.
  split; [reflexivity |]. split; [reflexivity |].
  destruct (single_shot_trigger (driver := Sim.driver Sim.healthy)
              Sim.ev0 Sim.single Sim.healthy)
    as (r & w' & evs & Hrun & Hidle & _).
  - reflexivity.
  - reflexivity.
  - reflexivity.
  - destruct (Hidle eq_refl) as (_ & Haccept).
    destruct (Haccept eq_refl) as (-> & Hp & Hc).
    exists w', evs. auto.
Defined.

Lemma first_sample_discarded_witness :
  exists si sj,
    fst (run (driver := Sim.driver Sim.healthy)
           [PLUGIN_READ Sim.ev0; PLUGIN_WRITE Sim.ev0 "scd4x,storesettings";
            PLUGIN_READ Sim.ev0] Sim.fresh) !! 0%nat = Some si /\
    fst (run (driver := Sim.driver Sim.healthy)
           [PLUGIN_READ Sim.ev0; PLUGIN_WRITE Sim.ev0 "scd4x,storesettings";
            PLUGIN_READ Sim.ev0] Sim.fresh) !! 2%nat = Some sj /\
    (exists evi, what si = PLUGIN_READ evi /\
       result si = false /\ slots_written evi (effects si) (after si)) /\
    (exists evj, what sj = PLUGIN_READ evj /\
       result sj = true /\ slots_written evj (effects sj) (after sj)).
Proof.
  set (cs := [PLUGIN_READ Sim.ev0; PLUGIN_WRITE Sim.ev0 "scd4x,storesettings";
              PLUGIN_READ Sim.ev0]).
  destruct (fst (run (driver := Sim.driver Sim.healthy) cs Sim.fresh) !! 0%nat)
    as [si |] eqn:Hi; [| vm_compute in Hi; discriminate Hi].
  destruct (fst (run (driver := Sim.driver Sim.healthy) cs Sim.fresh) !! 2%nat)
    as [sj |] eqn:Hj; [| vm_compute in Hj; discriminate Hj].
  exists si, sj. split; [reflexivity |]. split; [reflexivity |].
  pose proof Hi as Ei. pose proof Hj as Ej.
  vm_compute in Ei, Ej. injection Ei as Ei. injection Ej as Ej.
  apply (first_sample_discarded (driver := Sim.driver Sim.healthy)
           cs Sim.fresh 0 2 si sj).
  - reflexivity.
  - reflexivity.
  - exact Hi.
  - exact Hj.
  - lia.
  - rewrite <- Ei. left. reflexivity.
  - rewrite <- Ej. left. reflexivity.
  - intros k sk Hk Hlk.
    destruct k as [| [| k]]; [| | lia];
      vm_compute in Hlk; injection Hlk as <-;
      (split; [reflexivity |]); intros Hne; [congruence |].
    cbn. intuition discriminate.
Defined.

Lemma config_value_by_keyword_witness :
  plugin_get_config_value (driver := Sim.driver Sim.healthy) Sim.ev0
    "gettempoffset" Sim.fresh =
    Some ((true, "0.00"), Sim.fresh, [Drv (D_getTemperatureOffset (S754_zero false))]).
Proof.
  destruct (config_value_by_keyword (driver := Sim.driver Sim.healthy)
              Sim.ev0 "gettempoffset" Sim.fresh Sim.healthy eq_refl)
    as (_ & Hoffset & _).
  exact (Hoffset eq_refl).
Defined.

Lemma overrides_applied_when_detected_witness :
  exists w0 evs0,
    P135_data_struct_new (driver := Sim.driver Sim.healthy) 0 0 100
      (S754_zero false) true false false ∅ = Some (tt, w0, evs0) /\
    In (D_setSensorAltitude 100) (drv_calls evs0) /\
    ~ (exists f, In (D_setTemperatureOffset f) (drv_calls evs0)).
Proof.
  destruct (overrides_applied_when_detected (driver := Sim.driver Sim.healthy)
              0 0 100 (S754_zero false) true false false ∅)
    as (w0 & evs0 & Hnew & Halt & Hval & Hoff & _).
  exists w0, evs0. split; [exact Hnew |]. split.
  - destruct Halt as [_ Hcall].
    destruct Hcall as [a Ha]; [split; [reflexivity | discriminate] |].
    rewrite <- (Hval a Ha). exact Ha.
  - intros Hf. apply Hoff in Hf. destruct Hf as [_ Hne]. discriminate Hne.
Defined.

Lemma destructive_calls_are_authorised_witness :
  exists w0 evs0,
    P135_data_struct_new (driver := Sim.driver Sim.healthy) 0 0 0
      (S754_zero false) true false false ∅ = Some (tt, w0, evs0) /\
    authorised
      (fst (run (driver := Sim.driver Sim.healthy)
              [PLUGIN_WRITE Sim.ev0 "scd4x,factoryreset";
               PLUGIN_WRITE Sim.ev0 "scd4x,factoryreset,Scd4x137areseT";
               PLUGIN_READ Sim.ev0] w0))
      false 2.
Proof.
  destruct (destructive_calls_are_authorised (driver := Sim.driver Sim.healthy)
              0 0 0 (S754_zero false) true false false ∅
              [PLUGIN_WRITE Sim.ev0 "scd4x,factoryreset";
               PLUGIN_WRITE Sim.ev0 "scd4x,factoryreset,Scd4x137areseT";
               PLUGIN_READ Sim.ev0])
    as (w0 & evs0 & Hnew & _ & Hauth).
  exists w0, evs0. split; [exact Hnew |].
  assert (Hw : w0 = Sim.fresh).
  { vm_compute in Hnew. injection Hnew as <- _. reflexivity. }
  subst w0.
  destruct (fst (run (driver := Sim.driver Sim.healthy)
                   [PLUGIN_WRITE Sim.ev0 "scd4x,factoryreset";
                    PLUGIN_WRITE Sim.ev0 "scd4x,factoryreset,Scd4x137areseT";
                    PLUGIN_READ Sim.ev0] Sim.fresh) !! 2%nat)
    as [sk |] eqn:Hk; [| vm_compute in Hk; discriminate Hk].
  apply (Hauth 2%nat sk false Hk).
  vm_compute in Hk. injection Hk as <-.
  exists true. left. reflexivity.
Defined.

(** The pending flags are set by a confirmation and never cleared: after
    a confirmed and completed factory reset, confirming a self test makes
    the next read run the factory reset again, then the self test. *)
Example pending_flags_outlive_the_operation :
  map (fun s => drv_calls (effects s))
    (fst (run (driver := Sim.driver Sim.healthy)
            [PLUGIN_WRITE Sim.ev0 "scd4x,factoryreset";
             PLUGIN_WRITE Sim.ev0 "scd4x,factoryreset,Scd4x137areseT";
             PLUGIN_READ Sim.ev0;
             PLUGIN_WRITE Sim.ev0 "scd4x,selftest";
             PLUGIN_WRITE Sim.ev0 "scd4x,selftest,Scd4x31a6SelF";
             PLUGIN_READ Sim.ev0] Sim.fresh)) =
    [[];
     [D_stopPeriodicMeasurement true];
     [D_performFactoryReset true; D_startPeriodicMeasurement true];
     [];
     [D_stopPeriodicMeasurement true];
     [D_performFactoryReset true; D_startPeriodicMeasurement true;
      D_performSelfTest true; D_startPeriodicMeasurement true]].
Proof. vm_compute. reflexivity. Qed.

(** *** Inputs on which the claims as written fail *)

(** C3 as written: the handle built over a sensor that does not answer
    the probe is uninitialised, yet [scd4x,storesettings] calls the
    driver's [persistSettings] and reports its answer. *)
Lemma storesettings_reaches_undetected_sensor :
  Sim.built Sim.absent 0 (S754_zero false) false false =
    Some (Sim.undetected,
          [Drv (D_begin false true false);
           Log LOG_LEVEL_ERROR "SDC4x: Sensor not detected."]) /\
  initialized (self Sim.undetected) = false /\
  plugin_write (driver := Sim.driver Sim.absent) Sim.ev0
    "scd4x,storesettings" Sim.undetected =
    Some (true, Sim.undetected, [Drv (D_persistSettings true)]).
Proof. vm_compute. repeat split; reflexivity. Qed.

(** C6 as written: on the initialised single-shot handle built over a
    sensor that refuses single shots, a read with no shot pending marks
    no shot pending and goes on to the measurement; the second such
    read returns success. *)
Lemma refused_single_shot_reads_on :
  option_map fst (Sim.built Sim.no_shot 0 (S754_zero false) false true) =
    Some Sim.reluctant /\
  initialized (self Sim.reluctant) = true /\
  _useSingleShot (self Sim.reluctant) = true /\
  singleShotStarted (self Sim.reluctant) = false /\
  let steps := fst (run (driver := Sim.driver Sim.no_shot)
                      [PLUGIN_READ Sim.ev0; PLUGIN_READ Sim.ev0] Sim.reluctant) in
  map (fun s => singleShotStarted (self (after s))) steps = [false; false] /\
  map result steps = [false; true] /\
  map (fun s => drv_calls (effects s)) steps =
    [[D_measureSingleShot false; D_readMeasurement true; D_getCO2 415;
      D_getHumidity Sim.half; D_getTemperature Sim.twenty_five];
     [D_measureSingleShot false; D_readMeasurement true; D_getCO2 415;
      D_getHumidity Sim.half; D_getTemperature Sim.twenty_five]].
Proof. vm_compute. repeat split; reflexivity. Qed.

(** C7 as written: over a sensor that does not answer the probe, a
    non-zero altitude and a non-zero offset are not written. *)
Lemma undetected_sensor_keeps_overrides_unwritten :
  option_map (fun built => drv_calls (snd built))
    (Sim.built Sim.absent 100 Sim.half false false) =
    Some [D_begin false true false] /\
  100 <> 0 /\
  essentiallyEqual Sim.half (S754_zero false) = false.
Proof. split; [vm_compute; reflexivity |]. split; [discriminate | reflexivity]. Qed.

End Runs.

(** * Further properties of the code *)

Ltac unfold_write H :=
  unfold plugin_write, bind, get_self, modify, addLog, emit, ret, call,
    schedule_task_device_timer in H; cbv zeta in H.

Ltac unfold_config H :=
  unfold plugin_get_config_value, bind, call, ret in H.

(** ** What every call leaves alone *)

Section Frame.

Context {S : Type} {driver : SCD4x S} {host : Host}.

Lemma same_configuration_refl (h : P135_data_struct S) : same_configuration h h.
Proof. repeat split. Qed.

Lemma same_configuration_trans (h1 h2 h3 : P135_data_struct S) :
  same_configuration h1 h2 -> same_configuration h2 h3 ->
  same_configuration h1 h3.
Proof.
  intros (A1 & A2 & A3 & A4 & A5 & A6 & A7) (B1 & B2 & B3 & B4 & B5 & B6 & B7).
  repeat split; congruence.
Qed.

Lemma dispatch_keeps_configuration (c : invocation) (w w' : world S) (r : bool)
    (evs : list event) :
  dispatch c w = Some (r, w', evs) ->
  same_configuration (self w) (self w') /\
  (scd4x (self w) <> None -> scd4x (self w') <> None).
Proof.
  intros H. destruct c as [ev | ev str | ev str]; cbn [dispatch] in H.
  - unfold_read H.
    split_run H; cbn; (split; [repeat split |]); (congruence || discriminate).
  - unfold_write H.
    split_run H; cbn; (split; [repeat split |]); (congruence || discriminate).
  - unfold_config H.
    split_run H; cbn; (split; [repeat split |]); (congruence || discriminate).
Qed.

Lemma dispatch_returns (c : invocation) (w : world S) (d : S) :
  scd4x (self w) = Some d ->
  exists r w' evs, dispatch c w = Some (r, w', evs).
Proof.
  intros Hd. destruct c as [ev | ev str | ev str]; cbn [dispatch].
  - destruct (plugin_read_returns ev w d Hd) as (r & w' & evs & _ & H & _).
    eauto.
  - unfold_ops. split_goal; try congruence; eauto.
  - unfold_ops. split_goal; try congruence; eauto.
Qed.

(** X1. With a driver object attached no call faults: a run of any calls
    executes every one of them, and the driver stays attached. *)
Theorem run_with_driver_never_faults (cs : list invocation) :
  forall (w : world S) (d : S),
    scd4x (self w) = Some d ->
    exists steps w' d',
      run cs w = (steps, Some w') /\
      length steps = length cs /\
      scd4x (self w') = Some d'.
Proof.
  induction cs as [| c cs IH]; intros w d Hd.
  - exists [], w, d. auto.
  - destruct (dispatch_returns c w d Hd) as (r & w1 & evs & Hc).
    destruct (dispatch_keeps_configuration c w w1 r evs Hc) as [_ Hkeep].
    destruct (scd4x (self w1)) as [d1 |] eqn:Hd1;
      [| exfalso; apply Hkeep; congruence].
    destruct (IH w1 d1 Hd1) as (steps & w' & d' & Hrun & Hlen & Hd').
    cbn [run]. rewrite Hc, Hrun.
    eexists _, w', d'. split; [reflexivity |]. split; [cbn; lia | exact Hd'].
Qed.

(** X2. The configuration given at construction and the cached serial
    number are never changed by a read, a write or a query: at every
    step of every run they are those of the start. *)
Theorem configuration_is_immutable (cs : list invocation) :
  forall (w : world S) (k : nat) (sk : step S),
    fst (run cs w) !! k = Some sk ->
    same_configuration (self w) (self (before sk)) /\
    same_configuration (self w) (self (after sk)).
Proof.
  induction cs as [| c cs IH]; intros w k sk Hk.
  - cbn in Hk. discriminate Hk.
  - rewrite run_cons in Hk.
    destruct (dispatch c w) as [[[r w'] evs] |] eqn:Hd;
      [| cbn in Hk; discriminate Hk].
    destruct (dispatch_keeps_configuration c w w' r evs Hd) as [Hsame _].
    cbn [fst] in Hk. destruct k as [| k].
    + cbn in Hk. injection Hk as <-. cbn.
      split; [apply same_configuration_refl | exact Hsame].
    + cbn in Hk. destruct (IH w' k sk Hk) as [Hb Ha].
      split; eapply same_configuration_trans; eassumption.
Qed.

(** X3. A call writes no output slot but the three of its own task, and
    writes none at all unless [readMeasurement] succeeded in it, which
    happens in reads only: a write or a query never samples the sensor
    and leaves every output slot as it was. *)
Theorem only_own_slots_are_written (c : invocation) (w w' : world S) (r : bool)
    (evs : list event) :
  dispatch c w = Some (r, w', evs) ->
  (forall i, ~ own_slot (event_of c) i -> UserVar w' !! i = UserVar w !! i) /\
  (~ sampled evs -> UserVar w' = UserVar w) /\
  (sampled evs -> exists ev, c = PLUGIN_READ ev) /\
  ((forall ev, c <> PLUGIN_READ ev) -> UserVar w' = UserVar w).
Proof.
  intros H. destruct c as [ev | ev str | ev str]; cbn [dispatch] in H.
  - assert (Hread : (sampled evs -> exists ev0, PLUGIN_READ ev = PLUGIN_READ ev0) /\
                    ((forall ev0, PLUGIN_READ ev <> PLUGIN_READ ev0) ->
                     UserVar w' = UserVar w)).
    { split; [eauto |]. intros Hnr. destruct (Hnr ev eq_refl). }
    unfold_read H.
    split_run H; unfold sampled, own_slot in *; cbn in *;
      (split; [| split; [| exact Hread]]);
      try (intros; reflexivity).
    all: try (intros Hs; exfalso; apply Hs; cbn; tauto).
    all: intros i Hi;
      rewrite !lookup_insert_ne by (intros E; apply Hi; subst i; tauto);
      reflexivity.
  - unfold_write H.
    split_run H; unfold sampled; cbn;
      (split; [intros; reflexivity |]); (split; [intros; reflexivity |]);
      (split; [intros Hs; exfalso; cbn in Hs; intuition discriminate |]);
      intros; reflexivity.
  - unfold_config H.
    split_run H; unfold sampled; cbn;
      (split; [intros; reflexivity |]); (split; [intros; reflexivity |]);
      (split; [intros Hs; exfalso; cbn in Hs; intuition discriminate |]);
      intros; reflexivity.
Qed.

(** X4. Every timer a call requests is for the task of its own event, and
    its delay is the stop delay or a non-zero re-poll delay; a call
    requests at most two timers. *)
Theorem timers_are_for_own_task (c : invocation) (w w' : world S) (r : bool)
    (evs : list event) :
  dispatch c w = Some (r, w', evs) ->
  (length (timers evs) <= 2)%nat /\
  forall t delay,
    In (t, delay) (timers evs) ->
    t = TaskIndex (event_of c) /\
    (delay = P135_STOP_MEASUREMENT_DELAY \/
     delay <> 0 /\
     (delay = wrap16 P135_EXTEND_MEASURE_TIME \/
      delay = wrap16 P135_SINGLE_SHOT_MEASURE_TIME \/
      delay = wrap16 P135_LOW_POWER_MEASURE_TIME \/
      delay = wrap16 P135_NORMAL_MEASURE_TIME)).
Proof.
  intros H. destruct c as [ev | ev str | ev str]; cbn [dispatch] in H.
  - unfold_read H. unfold repoll_delay in H.
    split_run H; cbn; (split; [lia |]); intros t delay Hin;
      repeat match goal with
             | E : negb (_ =? 0) = true |- _ =>
                 apply negb_true_iff, Z.eqb_neq in E
             end;
      intuition (try congruence);
      match goal with
      | E : (_, _) = (_, _) |- _ => injection E as <- <-
      end; auto 10.
  - unfold_write H.
    split_run H; cbn; (split; [lia |]); intros t delay Hin;
      intuition (try congruence);
      match goal with
      | E : (_, _) = (_, _) |- _ => injection E as <- <-
      end; auto.
  - unfold_config H.
    split_run H; cbn; (split; [lia |]); intros t delay Hin; contradiction.
Qed.

(** X5. A write that is none of the sensor commands is ignored whatever the
    state of the handle: failure, no event, nothing changed. *)
Theorem unknown_command_is_ignored (ev : EventStruct) (str : string) (w : world S) :
  ~ sensor_command str ->
  plugin_write ev str w = Some (false, w, []).
Proof.
  intros Hc. unfold plugin_write.
  destruct (String.eqb (parseString str 1) "scd4x") eqn:Hcmd; [| reflexivity].
  apply String.eqb_eq in Hcmd.
  destruct (String.eqb (parseString str 2) "storesettings") eqn:Hst.
  { apply String.eqb_eq in Hst. exfalso. apply Hc. split; [exact Hcmd | tauto]. }
  destruct (String.eqb (parseString str 2) "factoryreset") eqn:Hfr.
  { apply String.eqb_eq in Hfr. exfalso. apply Hc.
    split; [exact Hcmd |]. right. left. exact Hfr. }
  destruct (String.eqb (parseString str 2) "selftest") eqn:Hse.
  { apply String.eqb_eq in Hse. exfalso. apply Hc.
    split; [exact Hcmd |]. right. right. exact Hse. }
  reflexivity.
Qed.

End Frame.

(** ** Construction: start of the measurement and the missing driver *)

Section ConstructionMore.

Context {S : Type} {driver : SCD4x S} {host : Host}.

(** X6. The constructor starts the configured measurement mode and takes the
    initialised flag from it: nothing is started for an undetected
    sensor or in single-shot mode (which counts as started); otherwise
    exactly the low-power or the normal periodic start is called,
    low-power winning, and its answer becomes the flag. *)
Theorem constructor_starts_configured_mode (taskIndex : nat)
    (sensorType altitude : Z) (tempOffset : float)
    (autoCalibrate lowPower singleShot : bool) (uv : gmap nat float) :
  exists w0 evs0,
    P135_data_struct_new taskIndex sensorType altitude tempOffset autoCalibrate
      lowPower singleShot uv = Some (tt, w0, evs0) /\
    (forall r, In (D_startLowPowerPeriodicMeasurement r) (drv_calls evs0) ->
       detected sensorType autoCalibrate = true /\ singleShot = false /\
       lowPower = true /\ initialized (self w0) = r) /\
    (forall r, In (D_startPeriodicMeasurement r) (drv_calls evs0) ->
       detected sensorType autoCalibrate = true /\ singleShot = false /\
       lowPower = false /\ initialized (self w0) = r) /\
    (initialized (self w0) = true -> detected sensorType autoCalibrate = true) /\
    (detected sensorType autoCalibrate = true -> singleShot = true ->
       initialized (self w0) = true) /\
    (detected sensorType autoCalibrate = true -> singleShot = false ->
       In (if lowPower
           then D_startLowPowerPeriodicMeasurement (initialized (self w0))
           else D_startPeriodicMeasurement (initialized (self w0)))
          (drv_calls evs0)).
Proof.
  unfold detected. unfold_ops. split_goal.
  all: eexists _, _; (split; [reflexivity |]); cbn.
  all: repeat match goal with
              | E : begin _ _ _ = _ |- _ => rewrite E; clear E
              end; cbn.
  all: repeat split; intros; subst;
         try (cbn in *; intuition (discriminate || congruence)).
Qed.

(** X7. When the driver object could not be allocated the constructor makes
    no call and logs nothing; the handle has no driver and is not
    initialised.  Reads and writes other than the sensor commands are
    then no-ops, but [scd4x,storesettings] and the four configuration
    queries go through the null driver pointer. *)
Theorem missing_driver_object (taskIndex : nat) (sensorType altitude : Z)
    (tempOffset : float) (autoCalibrate lowPower singleShot : bool)
    (uv : gmap nat float) :
  new_SCD4x sensorType = None ->
  exists w0,
    P135_data_struct_new taskIndex sensorType altitude tempOffset autoCalibrate
      lowPower singleShot uv = Some (tt, w0, []) /\
    scd4x (self w0) = None /\
    initialized (self w0) = false /\
    UserVar w0 = uv /\
    (forall cs, Forall ordinary cs ->
       exists steps,
         run cs w0 = (steps, Some w0) /\
         length steps = length cs /\
         Forall (fun s => result s = false /\ effects s = [] /\
                          before s = w0 /\ after s = w0) steps) /\
    (forall ev str,
       parseString str 1 = "scd4x" ->
       parseString str 2 = "storesettings" ->
       plugin_write ev str w0 = None) /\
    (forall ev str,
       config_keyword (parseString str 1) ->
       plugin_get_config_value ev str w0 = None).
Proof.
  intros Halloc.
  unfold P135_data_struct_new, P135_data_struct_body, bind, get_self.
  cbn. rewrite Halloc. cbn.
  eexists. split; [reflexivity |]. cbn.
  split; [reflexivity |]. split; [reflexivity |]. split; [reflexivity |].
  split; [| split].
  - intros cs Hcs. apply inert_run; auto.
  - intros ev str Hcmd Hsub. unfold plugin_write, call.
    rewrite Hcmd, Hsub. reflexivity.
  - intros ev str Hkey. unfold plugin_get_config_value, bind, call.
    destruct Hkey as [-> | [-> | [-> | ->]]]; reflexivity.
Qed.

End ConstructionMore.

(** ** Servicing a maintenance request in [plugin_read] *)

Section MaintenanceService.

Context {S : Type} {driver : SCD4x S} {host : Host}.

(** The driver operation behind each request. *)
Lemma serve_single_request (ev : EventStruct) (w : world S) (d : S) (st : bool) :
  initialized (self w) = false ->
  pending st (self w) = true ->
  pending (negb st) (self w) = false ->
  scd4x (self w) = Some d ->
  let perform := if st then performSelfTest else performFactoryReset in
  exists w' evs,
    plugin_read ev w = Some (fst (perform d), w', evs) /\
    hd_error (drv_calls evs) = Some (perform_call st (fst (perform d))) /\
    (forall b, ~ In (D_readMeasurement b) (drv_calls evs)) /\
    UserVar w' = UserVar w /\
    pending st (self w') = true /\
    factoryResetCode (self w') = factoryResetCode (self w) /\
    firstRead (self w') = firstRead (self w) /\
    (fst (perform d) = false ->
       initialized (self w') = false /\
       drv_calls evs = [perform_call st false] /\
       timers evs = [] /\
       scd4x (self w') = Some (snd (perform d))) /\
    (fst (perform d) = true ->
       timers evs = [(TaskIndex ev, P135_STOP_MEASUREMENT_DELAY)] /\
       (initialized (self w') = true <->
        _useSingleShot (self w) = true \/
        In (D_startLowPowerPeriodicMeasurement true) (drv_calls evs) \/
        In (D_startPeriodicMeasurement true) (drv_calls evs)) /\
       initialized (self w') =
         (if _useSingleShot (self w) then true
          else if _lowPowerMeasurement (self w)
               then fst (startLowPowerPeriodicMeasurement (snd (perform d)))
               else fst (startPeriodicMeasurement (snd (perform d)))) /\
       drv_calls evs =
         perform_call st true ::
         (if _useSingleShot (self w) then []
          else if _lowPowerMeasurement (self w)
               then [D_startLowPowerPeriodicMeasurement (initialized (self w'))]
               else [D_startPeriodicMeasurement (initialized (self w'))])).
Proof.
  intros Hi Hp Hq Hd perform. subst perform.
  destruct st; cbn [pending negb] in Hp, Hq.
  - destruct (performSelfTest d) as [ok d1] eqn:Hperf.
    unfold_ops. rewrite Hi, Hq. cbn. rewrite Hp, Hd, Hperf. cbn.
    destruct ok; cbn.
    + split_goal; eexists _, _; (split; [reflexivity |]); cbn;
        rewrite ?Hp; repeat split; intros;
        try (cbn in *; intuition (discriminate || congruence)).
    + eexists _, _. split; [reflexivity |]. cbn. rewrite ?Hp.
      repeat split; intros; try (cbn in *; intuition (discriminate || congruence)).
  - destruct (performFactoryReset d) as [ok d1] eqn:Hperf.
    unfold_ops. rewrite Hi, Hp. cbn. rewrite Hd, Hperf. cbn.
    destruct ok; cbn.
    + split_goal; rewrite ?Hq; cbn; eexists _, _;
        (split; [reflexivity |]); cbn;
        rewrite ?Hp; repeat split; intros;
        try (cbn in *; intuition (discriminate || congruence)).
    + rewrite Hq. eexists _, _. split; [reflexivity |]. cbn. rewrite ?Hp.
      repeat split; intros; try (cbn in *; intuition (discriminate || congruence)).
Qed.

(** X8. A read on an uninitialised handle with one maintenance request
    pending calls that operation first and returns its answer.  When the
    operation fails nothing else happens: the handle stays
    uninitialised, no timer is requested, and the request stays pending
    for the next read.  When it succeeds the configured measurement is
    started (no driver call in single-shot mode, which counts as
    started; else the low-power start when low-power is configured;
    else the normal start), nothing else is called, the start's answer
    becomes the initialised flag, and one timer after the stop delay is
    requested. *)
Theorem pending_request_is_served (ev : EventStruct) (w : world S) (d : S)
    (st : bool) :
  initialized (self w) = false ->
  pending st (self w) = true ->
  pending (negb st) (self w) = false ->
  scd4x (self w) = Some d ->
  let perform := if st then performSelfTest else performFactoryReset in
  exists w' evs,
    plugin_read ev w = Some (fst (perform d), w', evs) /\
    hd_error (drv_calls evs) = Some (perform_call st (fst (perform d))) /\
    pending st (self w') = true /\
    (fst (perform d) = false ->
       initialized (self w') = false /\
       drv_calls evs = [perform_call st false] /\
       timers evs = [] /\
       scd4x (self w') = Some (snd (perform d))) /\
    (fst (perform d) = true ->
       timers evs = [(TaskIndex ev, P135_STOP_MEASUREMENT_DELAY)] /\
       (initialized (self w') = true <->
        _useSingleShot (self w) = true \/
        In (D_startLowPowerPeriodicMeasurement true) (drv_calls evs) \/
        In (D_startPeriodicMeasurement true) (drv_calls evs)) /\
       initialized (self w') =
         (if _useSingleShot (self w) then true
          else if _lowPowerMeasurement (self w)
               then fst (startLowPowerPeriodicMeasurement (snd (perform d)))
               else fst (startPeriodicMeasurement (snd (perform d)))) /\
       drv_calls evs =
         perform_call st true ::
         (if _useSingleShot (self w) then []
          else if _lowPowerMeasurement (self w)
               then [D_startLowPowerPeriodicMeasurement (initialized (self w'))]
               else [D_startPeriodicMeasurement (initialized (self w'))])).
Proof.
  intros Hi Hp Hq Hd perform.
  destruct (serve_single_request ev w d st Hi Hp Hq Hd)
    as (w' & evs & H1 & H2 & _ & _ & H3 & _ & _ & H4 & H5).
  exists w', evs. auto.
Qed.

(** X9. With both requests pending a read runs the factory reset first and
    then the self test, even when the factory reset has just restarted
    the measurement, and returns the self test's answer: the answer of
    the factory reset is lost. *)
Theorem self_test_answer_wins (ev : EventStruct) (w : world S) (d : S) :
  initialized (self w) = false ->
  mustRunFactoryReset (self w) = true ->
  mustRunSelfTest (self w) = true ->
  scd4x (self w) = Some d ->
  exists r w' evs,
    plugin_read ev w = Some (r, w', evs) /\
    (exists started restarted,
       drv_calls evs =
         D_performFactoryReset (fst (performFactoryReset d)) :: started ++
         D_performSelfTest r :: restarted) /\
    (forall r', In (D_performSelfTest r') (drv_calls evs) -> r' = r).
Proof.
  intros Hi Hr Ht Hd.
  unfold_ops. rewrite Hi, Hr. cbn. rewrite Hd.
  destruct (performFactoryReset d) as [ok d1]. cbn.
  split_goal; rewrite ?Ht; split_goal; eexists _, _, _;
    (split; [reflexivity |]); cbn.
  all: try discriminate Ht.
  all: split;
    [ first [ exists (@nil drv_call), (@nil drv_call); reflexivity
            | eexists (cons _ nil), (@nil drv_call); reflexivity
            | eexists (@nil drv_call), (cons _ nil); reflexivity
            | eexists (cons _ nil), (cons _ nil); reflexivity ]
    | intros r' Hin; intuition (discriminate || congruence) ].
Qed.

End MaintenanceService.

(** ** More on the confirmation gate *)

Section GateMore.

Context {S : Type} {driver : SCD4x S} {host : Host}.

(** Second invocation with a wrong code: no driver is needed. *)
Lemma plugin_write_mismatch (ev : EventStruct) (str : string) (w : world S) :
  parseString str 1 = "scd4x" ->
  is_maintenance (parseString str 2) ->
  factoryResetCode (self w) <> "" ->
  parseStringKeepCase str 3 <> factoryResetCode (self w) ->
  plugin_write ev str w =
    Some (false,
          {| self := set_factoryResetCode "" (self w); UserVar := UserVar w |},
          []).
Proof.
  intros Hcmd Hsub Hcode Hne. unfold plugin_write. rewrite Hcmd.
  destruct (maintenance_dispatch _ Hsub) as [Hst Hm].
  change (String.eqb "scd4x" "scd4x") with true. cbv iota.
  rewrite Hst, Hm. unfold bind, get_self, modify, ret.
  rewrite (code_on_file _ Hcode).
  apply String.eqb_neq in Hne. rewrite Hne. reflexivity.
Qed.

Lemma keyword_selects (st : bool) : String.eqb (keyword st) "selftest" = st.
Proof. destruct st; reflexivity. Qed.

Lemma keyword_is_maintenance (st : bool) : is_maintenance (keyword st).
Proof. destruct st; [right | left]; reflexivity. Qed.

Lemma run_steps_are_dispatches (cs : list invocation) :
  forall (w : world S) (k : nat) (sk : step S),
    fst (run cs w) !! k = Some sk ->
    dispatch (what sk) (before sk) = Some (result sk, after sk, effects sk).
Proof.
  induction cs as [| c cs IH]; intros w k sk Hk.
  - cbn in Hk. discriminate Hk.
  - rewrite run_cons in Hk.
    destruct (dispatch c w) as [[[r w'] evs] |] eqn:Hd;
      [| cbn in Hk; discriminate Hk].
    cbn [fst] in Hk. destruct k as [| k].
    + cbn in Hk. injection Hk as <-. exact Hd.
    + cbn in Hk. exact (IH w' k sk Hk).
Qed.

Lemma configuration_along_run (cs : list invocation) :
  forall (w : world S) (k : nat) (sk : step S),
    fst (run cs w) !! k = Some sk ->
    same_configuration (self w) (self (before sk)).
Proof.
  induction cs as [| c cs IH]; intros w k sk Hk.
  - cbn in Hk. discriminate Hk.
  - rewrite run_cons in Hk.
    destruct (dispatch c w) as [[[r w'] evs] |] eqn:Hd;
      [| cbn in Hk; discriminate Hk].
    destruct (dispatch_keeps_configuration c w w' r evs Hd) as [Hsame _].
    cbn [fst] in Hk. destruct k as [| k].
    + cbn in Hk. injection Hk as <-. apply same_configuration_refl.
    + cbn in Hk. eapply same_configuration_trans; [exact Hsame |].
      exact (IH w' k sk Hk).
Qed.

(** X10. When the code is echoed but the driver fails to stop the periodic
    measurement, the confirmation is abandoned: the write fails, no
    request is armed, no timer is requested, the handle keeps its
    initialised and first-read flags, and the code is gone. *)
Theorem failed_stop_abandons_confirmation (ev : EventStruct) (str : string)
    (w : world S) (d : S) :
  parseString str 1 = "scd4x" ->
  is_maintenance (parseString str 2) ->
  factoryResetCode (self w) <> "" ->
  scd4x (self w) = Some d ->
  parseStringKeepCase str 3 = factoryResetCode (self w) ->
  fst (stopPeriodicMeasurement d) = false ->
  exists w' evs,
    plugin_write ev str w = Some (false, w', evs) /\
    factoryResetCode (self w') = "" /\
    initialized (self w') = initialized (self w) /\
    firstRead (self w') = firstRead (self w) /\
    (forall st, pending st (self w') = pending st (self w)) /\
    drv_calls evs = [D_stopPeriodicMeasurement false] /\
    timers evs = [] /\
    UserVar w' = UserVar w.
Proof.
  intros Hcmd Hsub Hcode Hd Hecho Hstop.
  pose proof (plugin_write_confirm ev str w d Hcmd Hsub Hcode Hd) as Hrun.
  cbv zeta in Hrun.
  apply String.eqb_eq in Hecho. rewrite Hecho, Hstop in Hrun.
  eexists _, _. split; [exact Hrun |]. cbn.
  repeat split.
Qed.

(** X11. Repeating a maintenance command without a code toggles the gate:
    the first call generates the code, the second one (its empty third
    token is not the code) fails and clears it, the third one generates
    the same code again; none of them reaches the driver or the
    scheduler. *)
Theorem command_without_code_toggles (ev : EventStruct) (str : string)
    (w : world S) :
  parseString str 1 = "scd4x" ->
  is_maintenance (parseString str 2) ->
  parseStringKeepCase str 3 = "" ->
  factoryResetCode (self w) = "" ->
  let code := confirmation_code (String.eqb (parseString str 2) "selftest")
                (serialNumber (self w)) in
  exists steps final,
    run [PLUGIN_WRITE ev str; PLUGIN_WRITE ev str; PLUGIN_WRITE ev str] w =
      (steps, Some final) /\
    map result steps = [true; false; true] /\
    map (fun s => factoryResetCode (self (after s))) steps = [code; ""; code] /\
    Forall (fun s => drv_calls (effects s) = [] /\ timers (effects s) = []) steps.
Proof.
  intros Hcmd Hsub Hnone Hcode code.
  pose proof (plugin_write_generate ev str w Hcmd Hsub Hcode) as H1.
  cbv zeta in H1. fold code in H1.
  set (w1 := {| self := set_factoryResetCode code (self w);
                UserVar := UserVar w |}) in *.
  assert (Hon : factoryResetCode (self w1) <> "")
    by apply confirmation_code_on_file.
  assert (Hne : parseStringKeepCase str 3 <> factoryResetCode (self w1)).
  { rewrite Hnone. intros E. apply Hon. symmetry. exact E. }
  pose proof (plugin_write_mismatch ev str w1 Hcmd Hsub Hon Hne) as H2.
  set (w2 := {| self := set_factoryResetCode "" (self w1);
                UserVar := UserVar w1 |}) in *.
  pose proof (plugin_write_generate ev str w2 Hcmd Hsub eq_refl) as H3.
  cbv zeta in H3.
  cbn [run dispatch]. rewrite H1, H2, H3.
  eexists _, _. split; [reflexivity |]. cbn.
  split; [reflexivity |]. split; [reflexivity |].
  repeat constructor.
Qed.

(** X12. A confirmed operation is carried out by the next read, not by the
    write: from a handle with nothing pending, generating the code,
    echoing it (the stop succeeding) and reading once gives success,
    success and the operation's own answer; the read calls the operation
    first, attempts no measurement and writes no output slot, and the
    first-read discard is armed for the measurements that follow. *)
Theorem confirmed_operation_runs_at_next_read (ev1 ev2 ev3 : EventStruct)
    (str1 str2 : string) (w : world S) (d : S) (st : bool) :
  parseString str1 1 = "scd4x" ->
  is_maintenance (parseString str1 2) ->
  factoryResetCode (self w) = "" ->
  mustRunFactoryReset (self w) = false ->
  mustRunSelfTest (self w) = false ->
  scd4x (self w) = Some d ->
  parseString str2 1 = "scd4x" ->
  parseString str2 2 = keyword st ->
  parseStringKeepCase str2 3 =
    confirmation_code (String.eqb (parseString str1 2) "selftest")
      (serialNumber (self w)) ->
  fst (stopPeriodicMeasurement d) = true ->
  let perform := if st then performSelfTest else performFactoryReset in
  let answer := fst (perform (snd (stopPeriodicMeasurement d))) in
  exists steps final,
    run [PLUGIN_WRITE ev1 str1; PLUGIN_WRITE ev2 str2; PLUGIN_READ ev3] w =
      (steps, Some final) /\
    map result steps = [true; true; answer] /\
    map (fun s => hd_error (drv_calls (effects s))) steps =
      [None; Some (D_stopPeriodicMeasurement true);
       Some (perform_call st answer)] /\
    Forall (fun s => forall b, ~ In (D_readMeasurement b) (drv_calls (effects s)))
      steps /\
    UserVar final = UserVar w /\
    firstRead (self final) = true /\
    factoryResetCode (self final) = "" /\
    pending st (self final) = true.
Proof.
  intros Hc1 Hs1 Hcode Hr Ht Hd Hc2 Hs2 Hecho Hstop perform answer.
  pose proof (plugin_write_generate ev1 str1 w Hc1 Hs1 Hcode) as H1.
  cbv zeta in H1.
  set (code := confirmation_code (String.eqb (parseString str1 2) "selftest")
                 (serialNumber (self w))) in *.
  set (w1 := {| self := set_factoryResetCode code (self w);
                UserVar := UserVar w |}) in *.
  assert (Hon : factoryResetCode (self w1) <> "")
    by apply confirmation_code_on_file.
  assert (Hm2 : is_maintenance (parseString str2 2))
    by (rewrite Hs2; apply keyword_is_maintenance).
  pose proof (plugin_write_confirm ev2 str2 w1 d Hc2 Hm2 Hon Hd) as H2.
  cbv zeta in H2.
  assert (Hcmp : String.eqb (parseStringKeepCase str2 3)
                   (factoryResetCode (self w1)) = true)
    by (apply String.eqb_eq; exact Hecho).
  rewrite Hcmp, Hstop, Hs2, keyword_selects in H2.
  match type of H2 with
  | _ = Some (_, ?w2, _) => set (w2v := w2) in *
  end.
  destruct (serve_single_request ev3 w2v (snd (stopPeriodicMeasurement d)) st)
    as (w3 & evs3 & H3 & Hhd & Hnoread & Huv & Hpend & Hcode3 & Hfirst & _).
  { subst w2v. destruct st; reflexivity. }
  { subst w2v. destruct st; reflexivity. }
  { subst w2v. destruct st; cbn; assumption. }
  { subst w2v. destruct st; reflexivity. }
  cbn [run dispatch]. rewrite H1, H2. fold perform in H3. fold answer in H3.
  rewrite H3.
  eexists _, _. split; [reflexivity |]. cbn [map result effects fst snd].
  split; [reflexivity |]. split.
  { cbn. fold perform in Hhd. fold answer in Hhd. rewrite Hhd. reflexivity. }
  split.
  { repeat constructor; cbn; intuition discriminate. }
  split; [rewrite Huv; reflexivity |].
  split; [rewrite Hfirst; subst w2v; destruct st; reflexivity |].
  split; [rewrite Hcode3; subst w2v; destruct st; reflexivity |].
  exact Hpend.
Qed.

(** X13. The confirmation code is not fresh: whenever a code is generated in
    a run, it is the code of that sub-command for the serial number the
    run started with, so every generation for the same operation puts
    the same string on file. *)
Theorem generated_code_is_always_the_same (cs : list invocation) (w : world S)
    (k : nat) (sk : step S) (code : string) :
  fst (run cs w) !! k = Some sk ->
  generates code sk ->
  exists ev str,
    what sk = PLUGIN_WRITE ev str /\
    code = confirmation_code (String.eqb (parseString str 2) "selftest")
             (serialNumber (self w)).
Proof.
  intros Hk (ev & str & Hwhat & Hcmd & Hsub & Hnone & Hafter).
  exists ev, str. split; [exact Hwhat |].
  pose proof (run_steps_are_dispatches cs w k sk Hk) as Hd.
  rewrite Hwhat in Hd. cbn [dispatch] in Hd.
  rewrite (plugin_write_generate ev str (before sk) Hcmd Hsub Hnone) in Hd.
  injection Hd as _ Hw _.
  destruct (configuration_along_run cs w k sk Hk) as (_ & _ & _ & _ & _ & _ & Hsn).
  rewrite <- Hafter, <- Hw. cbn. rewrite Hsn. reflexivity.
Qed.

(** X14. The code has 13 characters for the self test and 14 for the factory
    reset, so the two operations never share a code, whatever the serial
    numbers; and it depends on four bytes of the serial buffer only. *)
Theorem confirmation_code_shape (st : bool) (sn sn' : list ascii) :
  String.length (confirmation_code st sn) = (if st then 13 else 14)%nat /\
  confirmation_code true sn <> confirmation_code false sn' /\
  (char_at sn 1 = char_at sn' 1 ->
   char_at sn 3 = char_at sn' 3 ->
   char_at sn 10 = char_at sn' 10 ->
   char_at sn (if st then 6 else 7)%nat = char_at sn' (if st then 6 else 7)%nat ->
   confirmation_code st sn = confirmation_code st sn').
Proof.
  assert (Hlen : forall b s, String.length (confirmation_code b s)
                             = (if b then 13 else 14)%nat).
  { intros b s. unfold confirmation_code, append_char.
    destruct (negb (Ascii.eqb (char_at s 10) Ascii.zero)), b; reflexivity. }
  split; [apply Hlen |]. split.
  - intros E. apply (f_equal String.length) in E.
    rewrite (Hlen true sn), (Hlen false sn') in E. discriminate E.
  - intros H1 H3 H10 Hx. unfold confirmation_code.
    rewrite H1, H3, H10. destruct st; rewrite Hx; reflexivity.
Qed.

End GateMore.

(** ** More on the measurement cycle *)

Section ReadsMore.

Context {S : Type} {driver : SCD4x S} {host : Host}.

Lemma read_outcome (ev : EventStruct) (w w' : world S) (r : bool)
    (evs : list event) :
  initialized (self w) = true ->
  plugin_read ev w = Some (r, w', evs) ->
  initialized (self w') = true /\
  _useSingleShot (self w') = _useSingleShot (self w) /\
  (exists d', scd4x (self w') = Some d') /\
  (sampled evs -> timers evs = [] /\ singleShotStarted (self w') = false) /\
  (~ sampled evs ->
     singleShotStarted (self w) = true -> singleShotStarted (self w') = true).
Proof.
  intros Hi H. unfold_read H. rewrite Hi in H.
  split_run H; cbn; (split; [exact Hi |]); (split; [reflexivity |]);
    (split; [eauto |]); unfold sampled; cbn; split; intros Hs;
    try (exfalso; apply Hs; cbn; tauto);
    try (exfalso; cbn in Hs; intuition discriminate);
    try (split; reflexivity); try reflexivity; auto.
  all: intros Hp; rewrite Hp in *; cbn in *; rewrite ?andb_false_r in *;
    discriminate.
Qed.

Lemma trigger_comes_first (ev : EventStruct) (w : world S) (d : S) :
  initialized (self w) = true ->
  _useSingleShot (self w) = true ->
  singleShotStarted (self w) = false ->
  scd4x (self w) = Some d ->
  exists r w' evs,
    plugin_read ev w = Some (r, w', evs) /\
    hd_error (drv_calls evs) =
      Some (D_measureSingleShot (fst (measureSingleShot d))).
Proof.
  intros Hi Hu Hst Hd.
  unfold_ops. rewrite Hi, Hu, Hst. cbn. rewrite Hd.
  destruct (measureSingleShot d) as [ok d1]. cbn.
  split_goal; eexists _, _, _; (split; [reflexivity |]); reflexivity.
Qed.

(** X15. A read that obtains a sample requests no timer and ends a pending
    single shot; a read that obtains none leaves a pending shot
    pending. *)
Theorem sample_ends_the_cycle (ev : EventStruct) (w w' : world S) (r : bool)
    (evs : list event) :
  initialized (self w) = true ->
  plugin_read ev w = Some (r, w', evs) ->
  (sampled evs -> timers evs = [] /\ singleShotStarted (self w') = false) /\
  (~ sampled evs ->
     singleShotStarted (self w) = true -> singleShotStarted (self w') = true).
Proof.
  intros Hi H.
  destruct (read_outcome ev w w' r evs Hi H) as (_ & _ & _ & Hyes & Hno).
  split; assumption.
Qed.

(** X16. In single-shot mode every sample needs its own trigger: the read
    that follows a read with a sample starts by calling
    [measureSingleShot] again. *)
Theorem each_sample_needs_a_trigger (ev ev2 : EventStruct) (w w' : world S)
    (r : bool) (evs : list event) :
  initialized (self w) = true ->
  _useSingleShot (self w) = true ->
  plugin_read ev w = Some (r, w', evs) ->
  sampled evs ->
  exists r2 w2 evs2 accepted,
    plugin_read ev2 w' = Some (r2, w2, evs2) /\
    hd_error (drv_calls evs2) = Some (D_measureSingleShot accepted).
Proof.
  intros Hi Hu H Hs.
  destruct (read_outcome ev w w' r evs Hi H)
    as (Hi' & Hu' & [d' Hd'] & Hyes & _).
  destruct (Hyes Hs) as [_ Hst]. rewrite Hu in Hu'.
  destruct (trigger_comes_first ev2 w' d' Hi' Hu' Hst Hd')
    as (r2 & w2 & evs2 & H2 & Hhd).
  eauto 10.
Qed.

End ReadsMore.

(** ** Pending requests over the life of a handle *)

Section PendingRequests.

Context {S : Type} {driver : SCD4x S} {host : Host}.

Lemma dispatch_keeps_pending (c : invocation) (w w' : world S) (r : bool)
    (evs : list event) (st : bool) :
  dispatch c w = Some (r, w', evs) ->
  pending st (self w) = true ->
  pending st (self w') = true.
Proof.
  intros H Hp. destruct c as [ev | ev str | ev str]; cbn [dispatch] in H.
  - destruct (read_keeps_gate ev w w' r evs H) as (_ & Hflag & _).
    rewrite Hflag. exact Hp.
  - unfold_write H.
    split_run H; destruct st; cbn in *; congruence.
  - unfold bind, ret in H.
    destruct (plugin_get_config_value ev str w) as [[[r1 w1] e1] |] eqn:Hq;
      [| discriminate H].
    injection H as <- <- <-.
    destruct (config_keeps_gate ev str w w1 r1 e1 Hq) as (_ & Hflag & _).
    rewrite Hflag. exact Hp.
Qed.

(** X17. No read, write or query ever clears a pending maintenance request:
    once a request is pending it is pending after every later call. *)
Theorem pending_request_is_never_cleared (cs : list invocation) :
  forall (w : world S) (st : bool) (k : nat) (sk : step S),
    pending st (self w) = true ->
    fst (run cs w) !! k = Some sk ->
    pending st (self (before sk)) = true /\ pending st (self (after sk)) = true.
Proof.
  induction cs as [| c cs IH]; intros w st k sk Hp Hk.
  - cbn in Hk. discriminate Hk.
  - rewrite run_cons in Hk.
    destruct (dispatch c w) as [[[r w'] evs] |] eqn:Hd;
      [| cbn in Hk; discriminate Hk].
    pose proof (dispatch_keeps_pending c w w' r evs st Hd Hp) as Hp'.
    cbn [fst] in Hk. destruct k as [| k].
    + cbn in Hk. injection Hk as <-. cbn. auto.
    + cbn in Hk. exact (IH w' st k sk Hp' Hk).
Qed.

(** X18. The destructive driver calls are made by reads only, and only while
    the handle is uninitialised and the request is pending: a write, a
    query or a read on an initialised handle never makes one. *)
Theorem maintenance_runs_only_when_uninitialised (c : invocation)
    (w w' : world S) (r : bool) (evs : list event) (st r0 : bool) :
  dispatch c w = Some (r, w', evs) ->
  In (perform_call st r0) (drv_calls evs) ->
  (exists ev, c = PLUGIN_READ ev) /\
  initialized (self w) = false /\
  pending st (self w) = true.
Proof.
  intros H Hin. destruct c as [ev | ev str | ev str]; cbn [dispatch] in H.
  - split; [eauto |].
    destruct (read_keeps_gate ev w w' r evs H) as (Hp & _ & _).
    split; [| exact (Hp st r0 Hin)].
    unfold_read H.
    destruct (initialized (self w)) eqn:Hi; [| reflexivity].
    exfalso. split_run H; destruct st; cbn in Hin; intuition discriminate.
  - destruct (write_moves_gate ev str w w' r evs H) as (Hp & _ & _).
    destruct (Hp st r0 Hin).
  - unfold bind, ret in H.
    destruct (plugin_get_config_value ev str w) as [[[r1 w1] e1] |] eqn:Hq;
      [| discriminate H].
    injection H as <- <- <-. rewrite app_nil_r in Hin.
    destruct (config_keeps_gate ev str w w1 r1 e1 Hq) as (Hp & _ & _).
    destruct (Hp st r0 Hin).
Qed.

End PendingRequests.

(** ** The undetected sensor *)

Section UndetectedSensor.

Context {S : Type} {driver : SCD4x S} {host : Host}.

Lemma write_never_initialises (ev : EventStruct) (str : string) (w w' : world S)
    (r : bool) (evs : list event) :
  plugin_write ev str w = Some (r, w', evs) ->
  initialized (self w') = true ->
  initialized (self w) = true.
Proof.
  intros H. unfold_write H. split_run H; cbn; congruence.
Qed.

Lemma query_keeps_initialized (ev : EventStruct) (str : string) (w w' : world S)
    (r : bool * string) (evs : list event) :
  plugin_get_config_value ev str w = Some (r, w', evs) ->
  initialized (self w') = initialized (self w).
Proof.
  intros H. unfold_config H. split_run H; reflexivity.
Qed.

Lemma idle_before (c : invocation) (w w' : world S) (r : bool) (evs : list event) :
  dispatch c w = Some (r, w', evs) -> idle (self w') -> idle (self w).
Proof.
  intros H [Hr Ht]. split.
  - destruct (mustRunFactoryReset (self w)) eqn:E; [| reflexivity].
    pose proof (dispatch_keeps_pending c w w' r evs false H E) as Hp.
    cbn in Hp. congruence.
  - destruct (mustRunSelfTest (self w)) eqn:E; [| reflexivity].
    pose proof (dispatch_keeps_pending c w w' r evs true H E) as Hp.
    cbn in Hp. congruence.
Qed.

(** An uninitialised handle with no request pending is not initialised
    by any single call. *)
Lemma step_from_idle (c : invocation) (w w' : world S) (r : bool)
    (evs : list event) :
  dispatch c w = Some (r, w', evs) ->
  initialized (self w) = false ->
  idle (self w) ->
  initialized (self w') = false.
Proof.
  intros H Hi [Hr Ht]. destruct c as [ev | ev str | ev str].
  - rewrite (inert_step (PLUGIN_READ ev) w Hi Hr Ht I) in H.
    injection H as _ <- _. exact Hi.
  - cbn [dispatch] in H.
    destruct (initialized (self w')) eqn:Hi'; [| reflexivity].
    pose proof (write_never_initialises ev str w w' r evs H Hi') as Hc.
    congruence.
  - cbn [dispatch] in H. unfold bind, ret in H.
    destruct (plugin_get_config_value ev str w) as [[[r1 w1] e1] |] eqn:Hq;
      [| discriminate H].
    injection H as _ <- _.
    rewrite (query_keeps_initialized ev str w w1 r1 e1 Hq). exact Hi.
Qed.

(** Along a run, a handle that is uninitialised while idle, with a
    driver attached, stays so. *)
Lemma uninitialised_while_idle (cs : list invocation) :
  forall (w : world S) (k : nat) (sk : step S),
    (idle (self w) -> initialized (self w) = false) ->
    scd4x (self w) <> None ->
    fst (run cs w) !! k = Some sk ->
    (idle (self (before sk)) -> initialized (self (before sk)) = false) /\
    scd4x (self (before sk)) <> None.
Proof.
  induction cs as [| c cs IH]; intros w k sk Hinv Hdrv Hk.
  - cbn in Hk. discriminate Hk.
  - rewrite run_cons in Hk.
    destruct (dispatch c w) as [[[r w'] evs] |] eqn:Hd;
      [| cbn in Hk; discriminate Hk].
    cbn [fst] in Hk. destruct k as [| k].
    + cbn in Hk. injection Hk as <-. cbn. auto.
    + cbn in Hk. apply (IH w' k sk); [| | exact Hk].
      * intros Hidle'.
        pose proof (idle_before c w w' r evs Hd Hidle') as Hidle.
        exact (step_from_idle c w w' r evs Hd (Hinv Hidle) Hidle).
      * exact (proj2 (dispatch_keeps_configuration c w w' r evs Hd) Hdrv).
Qed.

(** C3, as the code has it.  When the sensor does not answer the bus
    probe of the constructor, the handle is uninitialised, and in every
    run of calls it stays uninitialised for as long as no reset or self
    test request has been armed through the maintenance path.  Until
    then every read, and every write other than the sensor commands
    ([scd4x,storesettings], [scd4x,factoryreset], [scd4x,selftest]), is
    a no-op: it returns failure, makes no driver call, requests no
    timer, logs nothing and leaves the handle and the output slots as
    they were.  Besides the maintenance path there is one more
    exception: [scd4x,storesettings] is not guarded by the initialised
    flag; at every point of the run it calls the driver's
    [persistSettings], nothing else, and returns its result. *)
Theorem undetected_sensor_is_inert (taskIndex : nat) (sensorType altitude : Z)
    (tempOffset : float) (autoCalibrate lowPower singleShot : bool)
    (uv : gmap nat float) (d : S) (cs : list invocation) :
  new_SCD4x sensorType = Some d ->
  fst (begin false autoCalibrate d) = false ->
  exists w0 evs0,
    P135_data_struct_new taskIndex sensorType altitude tempOffset autoCalibrate
      lowPower singleShot uv = Some (tt, w0, evs0) /\
    initialized (self w0) = false /\
    idle (self w0) /\
    forall k sk,
      fst (run cs w0) !! k = Some sk ->
      (idle (self (before sk)) ->
         initialized (self (before sk)) = false /\
         (ordinary (what sk) ->
            result sk = false /\ effects sk = [] /\ after sk = before sk)) /\
      (forall ev str,
         what sk = PLUGIN_WRITE ev str ->
         parseString str 1 = "scd4x" ->
         parseString str 2 = "storesettings" ->
         exists dk,
           scd4x (self (before sk)) = Some dk /\
           result sk = fst (persistSettings dk) /\
           effects sk = [Drv (D_persistSettings (fst (persistSettings dk)))] /\
           after sk =
             {| self := set_scd4x (Some (snd (persistSettings dk)))
                          (self (before sk));
                UserVar := UserVar (before sk) |}).
Proof.
  intros Halloc Hprobe.
  destruct (begin false autoCalibrate d) as [ok d0] eqn:Hbegin.
  cbn in Hprobe. subst ok.
  unfold P135_data_struct_new, P135_data_struct_body, bind, get_self, call,
    addLog, emit.
  cbn. rewrite Halloc. cbn. rewrite Hbegin. cbn.
  eexists _, _. split; [reflexivity |]. cbn.
  split; [reflexivity |]. split; [split; reflexivity |].
  intros k sk Hk.
  pose proof (run_steps_are_dispatches cs _ k sk Hk) as Hd.
  assert (Hinv : (idle (self (before sk)) -> initialized (self (before sk)) = false)
                 /\ scd4x (self (before sk)) <> None).
  { match type of Hk with
    | fst (run cs ?w0) !! _ = _ =>
        apply (uninitialised_while_idle cs w0 k sk);
          [intros _; reflexivity | cbn; discriminate | exact Hk]
    end. }
  destruct Hinv as [Hinv Hdrv].
  split.
  - intros Hidle. pose proof (Hinv Hidle) as Hi. split; [exact Hi |].
    intros Hord. destruct Hidle as [Hr Ht].
    rewrite (inert_step (what sk) (before sk) Hi Hr Ht Hord) in Hd.
    injection Hd as <- <- <-. auto.
  - intros ev str Hwhat Hcmd Hsub. rewrite Hwhat in Hd. cbn [dispatch] in Hd.
    unfold plugin_write, call in Hd. rewrite Hcmd, Hsub in Hd. cbn in Hd.
    destruct (scd4x (self (before sk))) as [dk |]; [| congruence].
    exists dk. split; [reflexivity |].
    destruct (persistSettings dk) as [res dk']. cbn.
    injection Hd as <- <- <-. auto.
Qed.

End UndetectedSensor.

(** ** Concrete runs for the further properties *)

Section RunsMore.

#[local] Existing Instance Sim.host.

Lemma run_with_driver_never_faults_witness :
  exists steps w' d',
    run (driver := Sim.driver Sim.healthy)
      [PLUGIN_READ Sim.ev0; PLUGIN_WRITE Sim.ev0 "scd4x,storesettings";
       PLUGIN_GET_CONFIG_VALUE Sim.ev0 "getaltitude"] Sim.fresh =
      (steps, Some w') /\
    length steps = 3%nat /\
    scd4x (self w') = Some d'.
Proof.
  exact (run_with_driver_never_faults (driver := Sim.driver Sim.healthy)
           [PLUGIN_READ Sim.ev0; PLUGIN_WRITE Sim.ev0 "scd4x,storesettings";
            PLUGIN_GET_CONFIG_VALUE Sim.ev0 "getaltitude"]
           Sim.fresh Sim.healthy eq_refl).
Defined.

Lemma configuration_is_immutable_witness :
  exists sk,
    fst (run (driver := Sim.driver Sim.healthy)
           [PLUGIN_WRITE Sim.ev0 "scd4x,factoryreset";
            PLUGIN_WRITE Sim.ev0 "scd4x,factoryreset,Scd4x137areseT";
            PLUGIN_READ Sim.ev0] Sim.fresh) !! 2%nat = Some sk /\
    same_configuration (self Sim.fresh) (self (before sk)) /\
    same_configuration (self Sim.fresh) (self (after sk)).
Proof.
  destruct (fst (run (driver := Sim.driver Sim.healthy)
                   [PLUGIN_WRITE Sim.ev0 "scd4x,factoryreset";
                    PLUGIN_WRITE Sim.ev0 "scd4x,factoryreset,Scd4x137areseT";
                    PLUGIN_READ Sim.ev0] Sim.fresh) !! 2%nat)
    as [sk |] eqn:Hk; [| vm_compute in Hk; discriminate Hk].
  exists sk. split; [reflexivity |].
  exact (configuration_is_immutable (driver := Sim.driver Sim.healthy)
           _ Sim.fresh 2 sk Hk).
Defined.

Lemma only_own_slots_are_written_witness :
  exists r w' evs,
    dispatch (driver := Sim.driver Sim.healthy) (PLUGIN_READ Sim.ev0) Sim.fresh =
      Some (r, w', evs) /\
    (forall i, ~ own_slot Sim.ev0 i -> UserVar w' !! i = UserVar Sim.fresh !! i) /\
    (~ sampled evs -> UserVar w' = UserVar Sim.fresh) /\
    (sampled evs -> exists ev, PLUGIN_READ Sim.ev0 = PLUGIN_READ ev) /\
    ((forall ev, PLUGIN_READ Sim.ev0 <> PLUGIN_READ ev) ->
     UserVar w' = UserVar Sim.fresh).
Proof.
  destruct (dispatch (driver := Sim.driver Sim.healthy) (PLUGIN_READ Sim.ev0)
              Sim.fresh) as [[[r w'] evs] |] eqn:Hd;
    [| vm_compute in Hd; discriminate Hd].
  exists r, w', evs. split; [reflexivity |].
  exact (only_own_slots_are_written (driver := Sim.driver Sim.healthy)
           (PLUGIN_READ Sim.ev0) Sim.fresh w' r evs Hd).
Defined.

Lemma timers_are_for_own_task_witness :
  exists r w' evs,
    dispatch (driver := Sim.driver Sim.waiting) (PLUGIN_READ Sim.ev0) Sim.polling =
      Some (r, w', evs) /\
    timers evs = [(0%nat, 1000)] /\
    (length (timers evs) <= 2)%nat /\
    forall t delay, In (t, delay) (timers evs) -> t = 0%nat.
Proof.
  destruct (dispatch (driver := Sim.driver Sim.waiting) (PLUGIN_READ Sim.ev0)
              Sim.polling) as [[[r w'] evs] |] eqn:Hd;
    [| vm_compute in Hd; discriminate Hd].
  exists r, w', evs. split; [reflexivity |].
  destruct (timers_are_for_own_task (driver := Sim.driver Sim.waiting)
              (PLUGIN_READ Sim.ev0) Sim.polling w' r evs Hd) as [Hlen Hown].
  split; [vm_compute in Hd; injection Hd as _ _ <-; reflexivity |].
  split; [exact Hlen |].
  intros t delay Hin. exact (proj1 (Hown t delay Hin)).
Defined.

Lemma unknown_command_is_ignored_witness :
  plugin_write (driver := Sim.driver Sim.healthy) Sim.ev0 "scd4x,calibrate"
    Sim.coded = Some (false, Sim.coded, []).
Proof.
  apply (unknown_command_is_ignored (driver := Sim.driver Sim.healthy)).
  unfold sensor_command, is_maintenance. intros [Hc Hs].
  vm_compute in Hs. intuition discriminate.
Defined.

Lemma constructor_starts_configured_mode_witness :
  exists w0 evs0,
    P135_data_struct_new (driver := Sim.driver Sim.healthy) 0 0 0
      (S754_zero false) true true false ∅ = Some (tt, w0, evs0) /\
    In (D_startLowPowerPeriodicMeasurement (initialized (self w0)))
      (drv_calls evs0) /\
    (forall r, ~ In (D_startPeriodicMeasurement r) (drv_calls evs0)).
Proof.
  destruct (constructor_starts_configured_mode (driver := Sim.driver Sim.healthy)
              0 0 0 (S754_zero false) true true false ∅)
    as (w0 & evs0 & Hnew & _ & Hnormal & _ & _ & Hstart).
  exists w0, evs0. split; [exact Hnew |]. split.
  - exact (Hstart eq_refl eq_refl).
  - intros r Hin. destruct (Hnormal r Hin) as (_ & _ & Hlow & _).
    discriminate Hlow.
Defined.

Lemma missing_driver_object_witness :
  new_SCD4x (SCD4x := Sim.driver Sim.healthy) 1 = None /\
  exists w0,
    P135_data_struct_new (driver := Sim.driver Sim.healthy) 0 1 100 Sim.half
      true false false ∅ = Some (tt, w0, []) /\
    scd4x (self w0) = None /\
    plugin_read (driver := Sim.driver Sim.healthy) Sim.ev0 w0 =
      Some (false, w0, []) /\
    plugin_write (driver := Sim.driver Sim.healthy) Sim.ev0
      "scd4x,storesettings" w0 = None /\
    plugin_get_config_value (driver := Sim.driver Sim.healthy) Sim.ev0
      "getdataready" w0 = None.
Proof.
  split; [reflexivity |].
  destruct (missing_driver_object (driver := Sim.driver Sim.healthy)
              0 1 100 Sim.half true false false ∅ eq_refl)
    as (w0 & Hnew & Hnull & _ & _ & Hrun & Hstore & Hquery).
  exists w0. split; [exact Hnew |]. split; [exact Hnull |]. split; [| split].
  - destruct (Hrun [PLUGIN_READ Sim.ev0]) as (steps & Hsteps & _ & Hall).
    + repeat constructor.
    + cbn [run dispatch] in Hsteps.
      destruct (plugin_read (driver := Sim.driver Sim.healthy) Sim.ev0 w0)
        as [[[r w'] evs] |]; [| discriminate Hsteps].
      injection Hsteps as Hs Hw. subst steps w'.
      apply Forall_cons in Hall. destruct Hall as [(Hres & Heff & _) _].
      cbn in Hres, Heff. subst r evs. reflexivity.
  - apply Hstore; reflexivity.
  - apply Hquery. right. right. left. reflexivity.
Defined.

Lemma pending_request_is_served_witness :
  let w := Sim.at_rest
             (set_mustRunFactoryReset true
                (set_initialized false (Sim.handle Sim.absent false true true ""))) in
  exists w' evs,
    plugin_read (driver := Sim.driver Sim.healthy) Sim.ev0 w =
      Some (false, w', evs) /\
    initialized (self w') = false /\
    mustRunFactoryReset (self w') = true /\
    drv_calls evs = [D_performFactoryReset false] /\
    timers evs = [].
Proof.
  intros w.
  destruct (pending_request_is_served (driver := Sim.driver Sim.healthy)
              Sim.ev0 w Sim.absent false)
    as (w' & evs & Hrun & _ & Hpend & Hfail & _).
  - reflexivity.
  - reflexivity.
  - reflexivity.
  - reflexivity.
  - destruct (Hfail eq_refl) as (Hi & Hcalls & Htimers & _).
    exists w', evs. auto.
Defined.

Lemma self_test_answer_wins_witness :
  let w := Sim.at_rest
             (set_mustRunSelfTest true
                (set_mustRunFactoryReset true
                   (set_initialized false
                      (Sim.handle Sim.healthy false true true "")))) in
  exists r w' evs,
    plugin_read (driver := Sim.driver Sim.healthy) Sim.ev0 w = Some (r, w', evs) /\
    (exists started restarted,
       drv_calls evs =
         D_performFactoryReset true :: started ++
         D_performSelfTest r :: restarted).
Proof.
  intros w.
  destruct (self_test_answer_wins (driver := Sim.driver Sim.healthy)
              Sim.ev0 w Sim.healthy)
    as (r & w' & evs & Hrun & Horder & _).
  - reflexivity.
  - reflexivity.
  - reflexivity.
  - reflexivity.
  - exists r, w', evs. split; [exact Hrun | exact Horder].
Defined.

Lemma failed_stop_abandons_confirmation_witness :
  let w := Sim.at_rest (Sim.handle Sim.absent false true false "Scd4x2022reseT") in
  exists w' evs,
    plugin_write (driver := Sim.driver Sim.healthy) Sim.ev0
      "scd4x,factoryreset,Scd4x2022reseT" w = Some (false, w', evs) /\
    factoryResetCode (self w') = "" /\
    initialized (self w') = true /\
    mustRunFactoryReset (self w') = false /\
    timers evs = [].
Proof.
  intros w.
  destruct (failed_stop_abandons_confirmation (driver := Sim.driver Sim.healthy)
              Sim.ev0 "scd4x,factoryreset,Scd4x2022reseT" w Sim.absent)
    as (w' & evs & Hrun & Hcode & Hi & _ & Hpend & _ & Htimers & _).
  - reflexivity.
  - left. reflexivity.
  - discriminate.
  - reflexivity.
  - reflexivity.
  - reflexivity.
  - exists w', evs. split; [exact Hrun |]. split; [exact Hcode |].
    split; [exact Hi |]. split; [exact (Hpend false) | exact Htimers].
Defined.

Lemma command_without_code_toggles_witness :
  exists steps final,
    run (driver := Sim.driver Sim.healthy)
      [PLUGIN_WRITE Sim.ev0 "scd4x,selftest"; PLUGIN_WRITE Sim.ev0 "scd4x,selftest";
       PLUGIN_WRITE Sim.ev0 "scd4x,selftest"] Sim.fresh = (steps, Some final) /\
    map result steps = [true; false; true] /\
    map (fun s => factoryResetCode (self (after s))) steps =
      ["Scd4x31a6SelF"; ""; "Scd4x31a6SelF"] /\
    Forall (fun s => drv_calls (effects s) = [] /\ timers (effects s) = []) steps.
Proof.
  exact (command_without_code_toggles (driver := Sim.driver Sim.healthy)
           Sim.ev0 "scd4x,selftest" Sim.fresh
           eq_refl (or_intror eq_refl) eq_refl eq_refl).
Defined.

Lemma confirmed_operation_runs_at_next_read_witness :
  exists steps final,
    run (driver := Sim.driver Sim.healthy)
      [PLUGIN_WRITE Sim.ev0 "scd4x,factoryreset";
       PLUGIN_WRITE Sim.ev0 "scd4x,selftest,Scd4x137areseT";
       PLUGIN_READ Sim.ev0] Sim.fresh = (steps, Some final) /\
    map result steps = [true; true; true] /\
    map (fun s => hd_error (drv_calls (effects s))) steps =
      [None; Some (D_stopPeriodicMeasurement true);
       Some (D_performSelfTest true)] /\
    firstRead (self final) = true.
Proof.
  destruct (confirmed_operation_runs_at_next_read
              (driver := Sim.driver Sim.healthy) Sim.ev0 Sim.ev0 Sim.ev0
              "scd4x,factoryreset" "scd4x,selftest,Scd4x137areseT"
              Sim.fresh Sim.healthy true)
    as (steps & final & Hrun & Hres & Hhd & _ & _ & Hfirst & _).
  - reflexivity.
  - left. reflexivity.
  - reflexivity.
  - reflexivity.
  - reflexivity.
  - reflexivity.
  - reflexivity.
  - reflexivity.
  - reflexivity.
  - reflexivity.
  - exists steps, final. split; [exact Hrun |]. split; [exact Hres |].
    split; [exact Hhd | exact Hfirst].
Defined.

Lemma generated_code_is_always_the_same_witness :
  exists sk,
    fst (run (driver := Sim.driver Sim.healthy)
           [PLUGIN_WRITE Sim.ev0 "scd4x,factoryreset";
            PLUGIN_WRITE Sim.ev0 "scd4x,factoryreset,wrong";
            PLUGIN_WRITE Sim.ev0 "scd4x,factoryreset"] Sim.fresh) !! 2%nat =
      Some sk /\
    generates "Scd4x137areseT" sk /\
    exists ev str,
      what sk = PLUGIN_WRITE ev str /\
      "Scd4x137areseT" =
        confirmation_code (String.eqb (parseString str 2) "selftest")
          (serialNumber (self Sim.fresh)).
Proof.
  destruct (fst (run (driver := Sim.driver Sim.healthy)
                   [PLUGIN_WRITE Sim.ev0 "scd4x,factoryreset";
                    PLUGIN_WRITE Sim.ev0 "scd4x,factoryreset,wrong";
                    PLUGIN_WRITE Sim.ev0 "scd4x,factoryreset"] Sim.fresh) !! 2%nat)
    as [sk |] eqn:Hk; [| vm_compute in Hk; discriminate Hk].
  exists sk. split; [reflexivity |].
  assert (Hgen : generates "Scd4x137areseT" sk).
  { pose proof Hk as Ek. vm_compute in Ek. injection Ek as <-.
    exists Sim.ev0, "scd4x,factoryreset".
    split; [reflexivity |]. split; [reflexivity |].
    split; [left; reflexivity |]. split; reflexivity. }
  split; [exact Hgen |].
  exact (generated_code_is_always_the_same (driver := Sim.driver Sim.healthy)
           _ Sim.fresh 2 sk "Scd4x137areseT" Hk Hgen).
Defined.

Lemma confirmation_code_shape_witness :
  String.length (confirmation_code false Sim.serial_A) = 14%nat /\
  confirmation_code true Sim.serial_A <> confirmation_code false Sim.serial_A.
Proof.
  destruct (confirmation_code_shape false Sim.serial_A Sim.serial_A)
    as (Hlen & Hne & _).
  split; [exact Hlen | exact Hne].
Defined.

Lemma sample_ends_the_cycle_witness :
  exists r w' evs,
    plugin_read (driver := Sim.driver Sim.healthy) Sim.ev0 Sim.fresh =
      Some (r, w', evs) /\
    sampled evs /\
    timers evs = [] /\
    singleShotStarted (self w') = false.
Proof.
  destruct (plugin_read (driver := Sim.driver Sim.healthy) Sim.ev0 Sim.fresh)
    as [[[r w'] evs] |] eqn:Hr; [| vm_compute in Hr; discriminate Hr].
  exists r, w', evs. split; [reflexivity |].
  assert (Hs : sampled evs).
  { pose proof Hr as Er. vm_compute in Er. injection Er as _ _ <-.
    left. reflexivity. }
  split; [exact Hs |].
  exact (proj1 (sample_ends_the_cycle (driver := Sim.driver Sim.healthy)
                  Sim.ev0 Sim.fresh w' r evs eq_refl Hr) Hs).
Defined.

Lemma each_sample_needs_a_trigger_witness :
  exists r w' evs r2 w2 evs2 accepted,
    plugin_read (driver := Sim.driver Sim.no_shot) Sim.ev0 Sim.reluctant =
      Some (r, w', evs) /\
    sampled evs /\
    plugin_read (driver := Sim.driver Sim.no_shot) Sim.ev0 w' =
      Some (r2, w2, evs2) /\
    hd_error (drv_calls evs2) = Some (D_measureSingleShot accepted).
Proof.
  destruct (plugin_read (driver := Sim.driver Sim.no_shot) Sim.ev0 Sim.reluctant)
    as [[[r w'] evs] |] eqn:Hr; [| vm_compute in Hr; discriminate Hr].
  assert (Hs : sampled evs).
  { pose proof Hr as Er. vm_compute in Er. injection Er as _ _ <-.
    right. left. reflexivity. }
  destruct (each_sample_needs_a_trigger (driver := Sim.driver Sim.no_shot)
              Sim.ev0 Sim.ev0 Sim.reluctant w' r evs eq_refl eq_refl Hr Hs)
    as (r2 & w2 & evs2 & accepted & H2 & Hhd).
  exists r, w', evs, r2, w2, evs2, accepted. auto.
Defined.

Lemma pending_request_is_never_cleared_witness :
  let w := Sim.at_rest
             (set_mustRunFactoryReset true
                (set_initialized false (Sim.handle Sim.healthy false true true ""))) in
  exists sk,
    fst (run (driver := Sim.driver Sim.healthy)
           [PLUGIN_READ Sim.ev0; PLUGIN_READ Sim.ev0] w) !! 1%nat = Some sk /\
    initialized (self (before sk)) = true /\
    mustRunFactoryReset (self (before sk)) = true /\
    mustRunFactoryReset (self (after sk)) = true.
Proof.
  intros w.
  destruct (fst (run (driver := Sim.driver Sim.healthy)
                   [PLUGIN_READ Sim.ev0; PLUGIN_READ Sim.ev0] w) !! 1%nat)
    as [sk |] eqn:Hk; [| vm_compute in Hk; discriminate Hk].
  exists sk. split; [reflexivity |].
  destruct (pending_request_is_never_cleared (driver := Sim.driver Sim.healthy)
              _ w false 1 sk eq_refl Hk) as [Hb Ha].
  split; [| split; [exact Hb | exact Ha]].
  vm_compute in Hk. injection Hk as <-. reflexivity.
Defined.

Lemma maintenance_runs_only_when_uninitialised_witness :
  let w := Sim.at_rest
             (set_mustRunSelfTest true
                (set_initialized false (Sim.handle Sim.healthy false true true ""))) in
  exists r w' evs,
    dispatch (driver := Sim.driver Sim.healthy) (PLUGIN_READ Sim.ev0) w =
      Some (r, w', evs) /\
    In (perform_call true true) (drv_calls evs) /\
    initialized (self w) = false /\
    pending true (self w) = true.
Proof.
  intros w.
  destruct (dispatch (driver := Sim.driver Sim.healthy) (PLUGIN_READ Sim.ev0) w)
    as [[[r w'] evs] |] eqn:Hd; [| vm_compute in Hd; discriminate Hd].
  exists r, w', evs. split; [reflexivity |].
  assert (Hin : In (perform_call true true) (drv_calls evs)).
  { pose proof Hd as Ed. vm_compute in Ed. injection Ed as _ _ <-.
    left. reflexivity. }
  split; [exact Hin |].
  exact (proj2 (maintenance_runs_only_when_uninitialised
                  (driver := Sim.driver Sim.healthy)
                  (PLUGIN_READ Sim.ev0) w w' r evs true true Hd Hin)).
Defined.

Lemma undetected_sensor_is_inert_witness :
  exists w0 evs0 s2 s3,
    P135_data_struct_new (driver := Sim.driver Sim.absent) 0 0 0
      (S754_zero false) true false false ∅ = Some (tt, w0, evs0) /\
    initialized (self w0) = false /\
    fst (run (driver := Sim.driver Sim.absent)
           [PLUGIN_READ Sim.ev0; PLUGIN_WRITE Sim.ev0 "reboot";
            PLUGIN_WRITE Sim.ev0 "scd4x,storesettings"; PLUGIN_READ Sim.ev0] w0)
      !! 2%nat = Some s2 /\
    fst (run (driver := Sim.driver Sim.absent)
           [PLUGIN_READ Sim.ev0; PLUGIN_WRITE Sim.ev0 "reboot";
            PLUGIN_WRITE Sim.ev0 "scd4x,storesettings"; PLUGIN_READ Sim.ev0] w0)
      !! 3%nat = Some s3 /\
    effects s2 = [Drv (D_persistSettings true)] /\
    initialized (self (before s3)) = false /\
    result s3 = false /\ effects s3 = [] /\ after s3 = before s3.
Proof.
  set (cs := [PLUGIN_READ Sim.ev0; PLUGIN_WRITE Sim.ev0 "reboot";
              PLUGIN_WRITE Sim.ev0 "scd4x,storesettings"; PLUGIN_READ Sim.ev0]).
  destruct (undetected_sensor_is_inert (driver := Sim.driver Sim.absent)
              0 0 0 (S754_zero false) true false false ∅ Sim.absent cs)
    as (w0 & evs0 & Hnew & Hi & _ & Hsteps).
  - reflexivity.
  - reflexivity.
  - assert (Hw : w0 = Sim.undetected).
    { vm_compute in Hnew. injection Hnew as <- _. reflexivity. }
    subst w0.
    destruct (fst (run (driver := Sim.driver Sim.absent) cs Sim.undetected)
                !! 2%nat) as [s2 |] eqn:H2; [| vm_compute in H2; discriminate H2].
    destruct (fst (run (driver := Sim.driver Sim.absent) cs Sim.undetected)
                !! 3%nat) as [s3 |] eqn:H3; [| vm_compute in H3; discriminate H3].
    exists Sim.undetected, evs0, s2, s3.
    split; [exact Hnew |]. split; [exact Hi |].
    split; [exact H2 |]. split; [exact H3 |].
    destruct (Hsteps 2%nat s2 H2) as [_ Hstore].
    destruct (Hsteps 3%nat s3 H3) as [Hquiet _].
    pose proof H2 as E2. pose proof H3 as E3.
    vm_compute in E2, E3. injection E2 as E2. injection E3 as E3.
    split.
    + destruct (Hstore Sim.ev0 "scd4x,storesettings")
        as (dk & Hdk & _ & Heff & _);
        [rewrite <- E2; reflexivity | reflexivity | reflexivity |].
      rewrite Heff. rewrite <- E2 in Hdk. cbn in Hdk.
      injection Hdk as <-. reflexivity.
    + destruct Hquiet as [Hi3 Hnoop].
      { rewrite <- E3. split; reflexivity. }
      split; [exact Hi3 |]. apply Hnoop. rewrite <- E3. exact I.
Defined.

(** The maintenance path is the way out for an undetected sensor: once
    a factory reset is confirmed, the next read carries it out and
    initialises the handle. *)
Example maintenance_path_revives_undetected_sensor :
  match Sim.built Sim.asleep 0 (S754_zero false) false false with
  | Some (w0, _) =>
      initialized (self w0) = false /\
      let run4 := run (driver := Sim.driver Sim.asleep)
                    [PLUGIN_READ Sim.ev0;
                     PLUGIN_WRITE Sim.ev0 "scd4x,factoryreset";
                     PLUGIN_WRITE Sim.ev0 "scd4x,factoryreset,Scd4x2022reseT";
                     PLUGIN_READ Sim.ev0] w0 in
      map result (fst run4) = [false; true; true; true] /\
      option_map (fun w => initialized (self w)) (snd run4) = Some true
  | None => False
  end.
Proof. vm_compute. repeat split; reflexivity. Qed.

End RunsMore.
